(** * Nutrition ledger server: a shallow embedding of the HTTP handlers

    The server is request/response glue around two external
    collaborators, the completion API and the spreadsheet API.  The
    handlers are embedded as functions in a small state-and-exception
    monad over the remote spreadsheet; JavaScript values are embedded as
    a small JSON value type, objects used as maps as [gmap string _]. *)

From Stdlib Require Import ZArith Ascii String List Sorted Lia.
From Stdlib Require SpecFloat.
From stdpp Require Import base option list gmap strings fin_maps.

Local Open Scope string_scope.
Local Open Scope Z_scope.

#[local] Set Warnings "-clear-no-such-hyp".

(** ** JavaScript values *)

Module JS.

(** The JSON values of request and response bodies.  The handlers only
    forward the numbers of a body, which are integer literals here. *)
Inductive json : Type :=
| JNull
| JBool (b : bool)
| JNum (n : Z)
| JStr (s : string).

(** A property read [o.k]: [None] stands for [undefined]. *)
Abbreviation obj := (gmap string json).

(** ToBoolean. *)
Definition truthy (v : option json) : bool :=
  match v with
  | None | Some JNull => false
  | Some (JBool b) => b
  | Some (JNum n) => negb (n =? 0)
  | Some (JStr s) => negb (String.eqb s "")
  end.

(** Truthiness of a string that may be [undefined]. *)
Definition truthy_str (s : option string) : bool :=
  match s with
  | None => false
  | Some s => negb (String.eqb s "")
  end.

(** [a || b] on values that may be [undefined]. *)
Definition or_else (a b : option json) : option json :=
  if truthy a then a else b.

(** Object spread [{...a, ...b}]: the own properties of [b] override
    those of [a]. *)
Definition spread (a b : obj) : obj := b ∪ a.

(** *** String.prototype.toLowerCase (ASCII letters) *)

Definition lower_ascii (c : ascii) : ascii :=
  let n := nat_of_ascii c in
  if ((65 <=? n) && (n <=? 90))%nat then ascii_of_nat (n + 32) else c.

Fixpoint toLowerCase (s : string) : string :=
  match s with
  | EmptyString => EmptyString
  | String c r => String (lower_ascii c) (toLowerCase r)
  end.

(** *** parseInt with the default radix

    Strings are held in UTF-8.  StrWhiteSpaceChar is the white space and
    the line terminators of the language: the ASCII ones and, matched by
    their encodings, U+00A0, U+1680, U+2000 to U+200A, U+2028, U+2029,
    U+202F, U+205F, U+3000 and U+FEFF.  [parseInt_str] gives the
    mathematical integer the digits denote, [None] for NaN; the Number
    that [parseInt] returns is the double nearest to it, see
    [parseInt_number] below. *)

Definition is_ws (c : ascii) : bool :=
  let n := nat_of_ascii c in
  ((n =? 32) || ((9 <=? n) && (n <=? 13)))%nat.

(** U+00A0 is C2 A0. *)
Definition is_ws2 (c1 c2 : ascii) : bool :=
  ((nat_of_ascii c1 =? 194) && (nat_of_ascii c2 =? 160))%nat.

Definition is_ws3 (c1 c2 c3 : ascii) : bool :=
  let a := nat_of_ascii c1 in
  let b := nat_of_ascii c2 in
  let c := nat_of_ascii c3 in
  (((a =? 225) && (b =? 154) && (c =? 128))              (* U+1680 *)
   || ((a =? 226) && (b =? 128) &&
       (((128 <=? c) && (c <=? 138))                      (* U+2000 to U+200A *)
        || (c =? 168) || (c =? 169) || (c =? 175)))       (* U+2028, U+2029, U+202F *)
   || ((a =? 226) && (b =? 129) && (c =? 159))            (* U+205F *)
   || ((a =? 227) && (b =? 128) && (c =? 128))            (* U+3000 *)
   || ((a =? 239) && (b =? 187) && (c =? 191)))%nat.      (* U+FEFF *)

Fixpoint skip_ws (s : string) : string :=
  match s with
  | String c r =>
      if is_ws c then skip_ws r
      else if (nat_of_ascii c <? 128)%nat then s
      else
        match r with
        | String c2 r2 =>
            if is_ws2 c c2 then skip_ws r2
            else
              match r2 with
              | String c3 r3 => if is_ws3 c c2 c3 then skip_ws r3 else s
              | EmptyString => s
              end
        | EmptyString => s
        end
  | EmptyString => s
  end.

Definition digit_of (radix : Z) (c : ascii) : option Z :=
  let n := Z.of_nat (nat_of_ascii c) in
  let d := if (48 <=? n) && (n <=? 57) then Some (n - 48)
           else if (97 <=? n) && (n <=? 122) then Some (n - 87)
           else if (65 <=? n) && (n <=? 90) then Some (n - 55)
           else None in
  match d with
  | Some v => if v <? radix then Some v else None
  | None => None
  end.

(** The longest prefix of digits, read most significant first; [acc] is
    [None] until a first digit has been seen. *)
Fixpoint read_digits (radix : Z) (s : string) (acc : option Z) : option Z :=
  match s with
  | String c r =>
      match digit_of radix c with
      | Some d => read_digits radix r (Some (default 0 acc * radix + d))
      | None => acc
      end
  | EmptyString => acc
  end.

Definition strip_hex (s : string) : option string :=
  match s with
  | String "0" (String "x" r) | String "0" (String "X" r) => Some r
  | _ => None
  end.

Definition parseInt_str (s : string) : option Z :=
  let s := skip_ws s in
  let '(sign, s) :=
    match s with
    | String "-" r => (-1, r)
    | String "+" r => (1, r)
    | _ => (1, s)
    end in
  let '(radix, s) :=
    match strip_hex s with
    | Some r => (16, r)
    | None => (10, s)
    end in
  match read_digits radix s None with
  | Some n => Some (sign * n)
  | None => None
  end.

(** [parseInt(x)] where [x] may be [undefined]: ToString gives
    ["undefined"], which has no digits. *)
Definition parseInt (x : option string) : option Z :=
  match x with
  | Some s => parseInt_str s
  | None => None
  end.

(** [parseInt(x) || d]: NaN and 0 are both falsy. *)
Definition parseInt_or (d : Z) (x : option string) : Z :=
  match parseInt x with
  | Some 0 | None => d
  | Some n => n
  end.

(** *** Numbers

    A Number is an IEEE 754 double.  Addition and division round to the
    nearest double, ties to even. *)

Definition number : Type := SpecFloat.spec_float.

Definition zero : number := SpecFloat.S754_zero false.

(** The double nearest to an integer. *)
Definition Number_of (n : Z) : number := SpecFloat.binary_normalize 53 1024 n 0 false.

Definition num_add (x y : number) : number := SpecFloat.SFadd 53 1024 x y.
Definition num_div (x y : number) : number := SpecFloat.SFdiv 53 1024 x y.

(** ToBoolean on a Number: the zeros and NaN are falsy. *)
Definition falsy (x : number) : bool :=
  match x with
  | SpecFloat.S754_zero _ | SpecFloat.S754_nan => true
  | _ => false
  end.

(** [x || d] on Numbers. *)
Definition number_or (x d : number) : number := if falsy x then d else x.

(** [parseInt(x)] as the Number it returns.  A zero keeps no sign here:
    the handlers only test it for truthiness. *)
Definition parseInt_number (x : option string) : number :=
  match parseInt x with
  | Some n => Number_of n
  | None => SpecFloat.S754_nan
  end.

(** Math.round: the integral Number closest to [x], the one towards plus
    infinity of two equally close; a result of zero keeps the sign of
    [x].  A finite [x] is [m * 2^e] up to sign. *)
Definition Math_round (x : number) : number :=
  match x with
  | SpecFloat.S754_finite s m e =>
      if 0 <=? e then x
      else
        let v := if s then Z.neg m else Z.pos m in
        let n := (2 * v + 2 ^ (- e)) / 2 ^ (1 - e) in
        if n =? 0 then SpecFloat.S754_zero s else Number_of n
  | _ => x
  end.

End JS.

Import JS.

(** ** Credential store: the token file and the refresh listener *)

Module CredentialStore.

(** TOKEN_PATH is either absent or holds the JSON text that [saveTokens]
    wrote, recorded here as the object the text denotes. *)
Definition Disk : Type := option (gmap string json).

Inductive Exn : Type :=
| ENOENT.   (* readFileSync on a missing file *)

(** [fs.writeFileSync(TOKEN_PATH, JSON.stringify(tokens, null, 2))] *)
Definition saveTokens (tokens : gmap string json) (d : Disk) : Disk := Some tokens.

(** [JSON.parse(fs.readFileSync(TOKEN_PATH, 'utf8'))] *)
Definition readTokens (d : Disk) : Exn + gmap string json :=
  match d with
  | Some t => inr t
  | None => inl ENOENT
  end.

(** [oauth2Client.on('tokens', ...)]: the result is the disk after the
    listener has run, or the exception it raised. *)
Definition on_tokens (tokens : gmap string json) (d : Disk) : Exn + Disk :=
  if truthy (tokens !! "refresh_token") then inr (saveTokens tokens d)
  else
    match readTokens d with
    | inr existingTokens => inr (saveTokens (spread existingTokens tokens) d)
    | inl e => inl e
    end.

(** The disk once the listener has returned or thrown. *)
Definition disk_after (r : Exn + Disk) (before : Disk) : Disk :=
  match r with
  | inr d => d
  | inl _ => before
  end.

Definition stored_refresh_token (d : Disk) : option json :=
  d ≫= (fun t => t !! "refresh_token").

End CredentialStore.

(** ** The spreadsheet provider

    The provider is outside the repository.  It is modelled as a book of
    two sheets addressed by ranges, with the behaviour the handlers rely
    on: reads drop trailing empty cells and rows and report an empty
    range as [undefined]; a range that names a missing sheet or a
    malformed row number is an error; the grid is unbounded.  Every call
    is recorded in a log, and any call may fail (network, quota): the
    [n]-th call of a run fails when [outage n] says so. *)

Module Sheets.

Definition Row : Type := list string.

Record Book : Type := mkBook {
  Sheet1 : list Row;              (* the ledger, sheetId 0 *)
  Settings : option (list Row)    (* the targets sheet, absent until created *)
}.

(** A1 ranges as the handlers write them: [Sheet1!A:G] is
    [mkRange "Sheet1" 0 6 AllRows], [Sheet1!D5:G5] is
    [mkRange "Sheet1" 3 6 (RowAt (Some 5))].  A row number that was
    computed from NaN is [RowAt None]. *)
Inductive RowSel : Type :=
| AllRows
| RowAt (n : option Z).

Record Range : Type := mkRange {
  r_sheet : string;
  r_first : nat;
  r_last : nat;
  r_rows : RowSel
}.

Inductive Call : Type :=
| values_append (range : Range) (values : list (list (option json)))
| values_get (range : Range)
| values_update (range : Range) (values : list (list (option json)))
| deleteDimension (sheetId : Z) (startIndex endIndex : option Z)
| addSheet (title : string)
| spreadsheets_get.

Inductive Exn : Type :=
| Error (message : string).

Definition message (e : Exn) : string :=
  match e with Error m => m end.

(** *** Reads *)

Fixpoint trim_end {A : Type} (blank : A -> bool) (l : list A) : list A :=
  match l with
  | [] => []
  | x :: r =>
      match trim_end blank r with
      | [] => if blank x then [] else [x]
      | r' => x :: r'
      end
  end.

Definition blank_cell (c : string) : bool := String.eqb c "".

Definition blank_row (r : Row) : bool :=
  match r with [] => true | _ => false end.

Definition columns (first last : nat) (r : Row) : Row :=
  trim_end blank_cell (take (S last - first) (drop first r)).

Definition sheet_rows (b : Book) (title : string) : option (list Row) :=
  if String.eqb title "Sheet1" then Some (Sheet1 b)
  else if String.eqb title "Settings" then Settings b
  else None.

Definition set_sheet_rows (b : Book) (title : string) (rows : list Row) : Book :=
  if String.eqb title "Sheet1" then mkBook rows (Settings b)
  else mkBook (Sheet1 b) (Some rows).

Definition select_rows (sel : RowSel) (rows : list Row) : option (list Row) :=
  match sel with
  | AllRows => Some rows
  | RowAt (Some n) =>
      if 1 <=? n then Some (option_list (rows !! Z.to_nat (n - 1))) else None
  | RowAt None => None
  end.

(** [response.data.values] of [spreadsheets.values.get]. *)
Definition read_range (b : Book) (rg : Range) : Exn + option (list Row) :=
  match sheet_rows b (r_sheet rg) with
  | None => inl (Error "Unable to parse range")
  | Some rows =>
      match select_rows (r_rows rg) rows with
      | None => inl (Error "Unable to parse range")
      | Some sel =>
          match trim_end blank_row (map (columns (r_first rg) (r_last rg)) sel) with
          | [] => inr None
          | vs => inr (Some vs)
          end
      end
  end.

(** *** Writes *)

Fixpoint decimal_digits (fuel : nat) (n : Z) (acc : string) : string :=
  match fuel with
  | O => acc
  | S fuel' =>
      let acc' := String (ascii_of_nat (48 + Z.to_nat (n mod 10))) acc in
      if n <? 10 then acc' else decimal_digits fuel' (n / 10) acc'
  end.

Definition decimal (n : Z) : string :=
  let a := Z.abs n in
  let s := decimal_digits (S (Z.to_nat (Z.log2 a))) a "" in
  if n <? 0 then String "-" s else s.

(** What a cell holds after a value has been entered; [null] and
    [undefined] leave the cell as it is. *)
Definition entered (v : option json) : option string :=
  match v with
  | None | Some JNull => None
  | Some (JBool true) => Some "TRUE"
  | Some (JBool false) => Some "FALSE"
  | Some (JNum n) => Some (decimal n)
  | Some (JStr s) => Some s
  end.

Definition pad_to {A : Type} (n : nat) (x : A) (l : list A) : list A :=
  l ++ replicate (n - length l) x.

(** Enter [vals] into the cells of [r] from column [first] on. *)
Fixpoint write_cells (first : nat) (vals : list (option json)) (r : Row) : Row :=
  match vals with
  | [] => r
  | v :: vs =>
      let r' := match entered v with
                | Some c => <[first := c]> (pad_to (S first) "" r)
                | None => r
                end in
      write_cells (S first) vs r'
  end.

Definition write_row (first : nat) (vals : list (option json)) (i : nat)
    (rows : list Row) : list Row :=
  let rows' := pad_to (S i) [] rows in
  <[i := write_cells first vals (default [] (rows' !! i))]> rows'.

(** [spreadsheets.values.update] with one row of values. *)
Definition update_range (b : Book) (rg : Range) (values : list (list (option json)))
    : Exn + Book :=
  match sheet_rows b (r_sheet rg), r_rows rg, values with
  | Some rows, RowAt (Some n), [vals] =>
      if (1 <=? n) && (length vals <=? S (r_last rg) - r_first rg)%nat
      then inr (set_sheet_rows b (r_sheet rg)
                  (write_row (r_first rg) vals (Z.to_nat (n - 1)) rows))
      else inl (Error "Invalid range")
  | _, _, _ => inl (Error "Unable to parse range")
  end.

(** [spreadsheets.values.append] with one row of values: the row goes
    below the last row that holds data. *)
Definition append_range (b : Book) (rg : Range) (values : list (list (option json)))
    : Exn + Book :=
  match sheet_rows b (r_sheet rg), values with
  | Some rows, [vals] =>
      inr (set_sheet_rows b (r_sheet rg)
             (trim_end blank_row rows ++ [write_cells (r_first rg) vals []]))
  | _, _ => inl (Error "Unable to parse range")
  end.

(** [deleteDimension] of ROWS [startIndex, endIndex) on the sheet with
    id 0. *)
Definition delete_rows (b : Book) (sheetId : Z) (startIndex endIndex : option Z)
    : Exn + Book :=
  match startIndex, endIndex with
  | Some s, Some e =>
      if (sheetId =? 0) && (0 <=? s) && (s <? e)
      then inr (mkBook (take (Z.to_nat s) (Sheet1 b) ++ drop (Z.to_nat e) (Sheet1 b))
                  (Settings b))
      else inl (Error "Invalid requests[0].deleteDimension")
  | _, _ => inl (Error "Invalid requests[0].deleteDimension")
  end.

Definition add_sheet (b : Book) (title : string) : Exn + Book :=
  if String.eqb title "Settings" then
    match Settings b with
    | None => inr (mkBook (Sheet1 b) (Some []))
    | Some _ => inl (Error "A sheet with that name already exists")
    end
  else inl (Error "Unsupported sheet title").

(** [spreadsheet.data.sheets], as the titles of the sheets. *)
Definition sheet_titles (b : Book) : list string :=
  "Sheet1" :: match Settings b with Some _ => ["Settings"] | None => [] end.

(** *** The remote end and the monad of the handlers *)

Record Remote : Type := mkRemote {
  book : Book;
  log : list Call;
  outage : nat -> bool
}.

Definition M (A : Type) : Type := Remote -> (Exn + A) * Remote.

Definition ret {A : Type} (a : A) : M A := fun r => (inr a, r).

Definition bind {A B : Type} (m : M A) (k : A -> M B) : M B :=
  fun r =>
    match m r with
    | (inr a, r') => k a r'
    | (inl e, r') => (inl e, r')
    end.

Definition throw {A : Type} (e : Exn) : M A := fun r => (inl e, r).

(** [try { m } catch (err) { h(err) }] *)
Definition try_catch {A : Type} (m : M A) (h : Exn -> M A) : M A :=
  fun r =>
    match m r with
    | (inr a, r') => (inr a, r')
    | (inl e, r') => h e r'
    end.

(** One awaited call: it is logged, then it fails or takes effect. *)
Definition remote {A : Type} (c : Call) (eff : Book -> Exn + (A * Book)) : M A :=
  fun r =>
    let r' := mkRemote (book r) (log r ++ [c]) (outage r) in
    if outage r (length (log r)) then (inl (Error "request failed"), r')
    else
      match eff (book r) with
      | inr (a, b') => (inr a, mkRemote b' (log r ++ [c]) (outage r))
      | inl e => (inl e, r')
      end.

Definition writes (w : Exn + Book) : Exn + (unit * Book) :=
  match w with
  | inr b => inr (tt, b)
  | inl e => inl e
  end.

Definition api_values_get (rg : Range) : M (option (list Row)) :=
  remote (values_get rg)
    (fun b => match read_range b rg with
              | inr v => inr (v, b)
              | inl e => inl e
              end).

Definition api_values_append (rg : Range) (vs : list (list (option json))) : M unit :=
  remote (values_append rg vs) (fun b => writes (append_range b rg vs)).

Definition api_values_update (rg : Range) (vs : list (list (option json))) : M unit :=
  remote (values_update rg vs) (fun b => writes (update_range b rg vs)).

Definition api_deleteDimension (sheetId : Z) (s e : option Z) : M unit :=
  remote (deleteDimension sheetId s e) (fun b => writes (delete_rows b sheetId s e)).

Definition api_addSheet (title : string) : M unit :=
  remote (addSheet title) (fun b => writes (add_sheet b title)).

Definition api_spreadsheets_get : M (list string) :=
  remote spreadsheets_get (fun b => inr (sheet_titles b, b)).

End Sheets.

Import Sheets.

#[global] Instance M_ret : MRet M := @ret.
#[global] Instance M_bind : MBind M := fun A B k m => bind m k.

(** ** Dates

    A [Date] is embedded by its local time value: milliseconds of wall
    clock since the local epoch.  The server's zone is taken to have a
    fixed offset, so local time values order like instants.  The
    arithmetic is ECMAScript's MakeDay / MakeTime / MakeDate. *)

Module Dates.

Definition msPerDay : Z := 86400000.

Definition DaysInYear (y : Z) : Z :=
  if negb (y mod 4 =? 0) then 365
  else if negb (y mod 100 =? 0) then 366
  else if negb (y mod 400 =? 0) then 365
  else 366.

Definition DayFromYear (y : Z) : Z :=
  365 * (y - 1970) + (y - 1969) / 4 - (y - 1901) / 100 + (y - 1601) / 400.

Definition InLeapYear (y : Z) : Z :=
  if DaysInYear y =? 366 then 1 else 0.

(** Day within the year of the first day of month [m], [0 <= m <= 11]. *)
Definition month_start (leap m : Z) : Z :=
  match m with
  | 0 => 0
  | 1 => 31
  | 2 => 59 + leap
  | 3 => 90 + leap
  | 4 => 120 + leap
  | 5 => 151 + leap
  | 6 => 181 + leap
  | 7 => 212 + leap
  | 8 => 243 + leap
  | 9 => 273 + leap
  | 10 => 304 + leap
  | _ => 334 + leap
  end.

Definition MakeDay (year month date : Z) : Z :=
  let ym := year + month / 12 in
  let mn := month mod 12 in
  DayFromYear ym + month_start (InLeapYear ym) mn + date - 1.

Definition MakeTime (hour min sec ms : Z) : Z :=
  hour * 3600000 + min * 60000 + sec * 1000 + ms.

Definition MakeDate (day time : Z) : Z := day * msPerDay + time.

(** [new Date(year, month, date)]: local midnight, after normalising
    month and date overflow; years 0 to 99 mean 1900 to 1999. *)
Definition new_Date (year month date : Z) : Z :=
  let yr := if (0 <=? year) && (year <=? 99) then 1900 + year else year in
  MakeDate (MakeDay yr month date) 0.

(** The calendar fields of a wall-clock reading: what [getFullYear],
    [getMonth] (0 to 11), [getDate], ... return on it. *)
Record Wall : Type := mkWall {
  getFullYear : Z;
  getMonth : Z;
  getDate : Z;
  getHours : Z;
  getMinutes : Z;
  getSeconds : Z
}.

Definition getTime (w : Wall) : Z :=
  MakeDate (MakeDay (getFullYear w) (getMonth w) (getDate w))
           (MakeTime (getHours w) (getMinutes w) (getSeconds w) 0).

Definition days_in_month (y m : Z) : Z :=
  MakeDay y (m + 1) 1 - MakeDay y m 1.

(** A reading a clock can show. *)
Definition wf_wall (w : Wall) : Prop :=
  100 <= getFullYear w /\ 0 <= getMonth w <= 11 /\
  1 <= getDate w <= days_in_month (getFullYear w) (getMonth w) /\
  0 <= getHours w <= 23 /\ 0 <= getMinutes w <= 59 /\ 0 <= getSeconds w <= 59.

(** What the host provides: the generic date parser ([None] is an
    Invalid Date) and the clock read in a time zone ([None]: the zone is
    not known and the formatter throws a RangeError). *)
Record Host : Type := mkHost {
  Date_parse : option string -> option Z;
  wall_clock : json -> option Wall;
  toLocaleDateString : json -> option string;
  toLocaleTimeString : json -> option string;
  serverDateString : string;
  serverTimeString : string
}.

(** *** A parser for the M/D/YYYY dates the ledger holds *)

Fixpoint split_on (sep : ascii) (s : string) (cur : string) : list string :=
  match s with
  | EmptyString => [cur]
  | String c r =>
      if Ascii.eqb c sep then cur :: split_on sep r ""
      else split_on sep r (cur ++ String c "")
  end.

Fixpoint all_digits (s : string) : bool :=
  match s with
  | EmptyString => true
  | String c r =>
      let n := nat_of_ascii c in ((48 <=? n) && (n <=? 57))%nat && all_digits r
  end.

Definition numeral (s : string) : option Z :=
  if all_digits s then read_digits 10 s None else None.

Definition parse_MDY (s : option string) : option Z :=
  match s with
  | None => None
  | Some s =>
      match split_on "/" s "" with
      | [m; d; y] =>
          match numeral m, numeral d, numeral y with
          | Some m, Some d, Some y =>
              if (1 <=? m) && (m <=? 12) && (1 <=? d) && (d <=? 31) && (100 <=? y)
              then Some (new_Date y (m - 1) d)
              else None
          | _, _, _ => None
          end
      | _ => None
      end
  end.

End Dates.

Import Dates.

(** ** The HTTP surface *)

Module Server.

Record Config : Type := mkConfig {
  GOOGLE_SHEETS_ID : option string;   (* process.env.GOOGLE_SHEETS_ID *)
  credentials : gmap string json;     (* oauth2Client.credentials *)
  host : Host
}.

Record Macros : Type := mkMacros {
  m_calories : number;
  m_protein : number;
  m_carbs : number;
  m_fat : number
}.

(** The two counts are whole numbers far below 2^53, where the doubles
    that hold them are exact; the totals and averages are doubles. *)
Record Summary : Type := mkSummary {
  period : option string;
  totalCalories : number;
  totalProtein : number;
  totalCarbs : number;
  totalFat : number;
  entryCount : Z;
  daysCount : Z;
  avgCalories : number;
  avgProtein : number;
  avgCarbs : number;
  avgFat : number
}.

(** The macros of an entry are kept as the integers its cells denote. *)
Record Entry : Type := mkEntry {
  rowIndex : Z;
  e_date : option string;
  e_time : option string;
  e_food : option string;
  e_calories : Z;
  e_protein : Z;
  e_carbs : Z;
  e_fat : Z;
  e_logged : bool
}.

Inductive Body : Type :=
| BError (error : string)
| BAnalysis (food calories protein carbs fat date : option json)
            (time : string) (logged : bool)
| BConfirm (food calories protein carbs fat date time : option json)
           (logged : bool) (rowIndex : option Z)
| BNotAuthenticated                 (* { error: 'Not authenticated', authenticated: false } *)
| BSummary (s : Summary)            (* ..., authenticated: true *)
| BEntries (entries : list Entry) (authenticated : bool)
| BSuccess                          (* { success: true } *)
| BTargets (calories protein carbs fat : Z)
| BObject (o : gmap string json).

Record Response : Type := mkResponse {
  status : Z;
  body : Body
}.

(** [res.json(b)] and [res.status(s).json(b)] *)
Definition json_ (b : Body) : M Response := ret (mkResponse 200 b).
Definition status_json (s : Z) (b : Body) : M Response := ret (mkResponse s b).

(** The [try { ... } catch (error) { res.status(500).json(...) }] that
    wraps every handler. *)
Definition handler (m : M Response) (r : Remote) : Response * Remote :=
  match m r with
  | (inr resp, r') => (resp, r')
  | (inl e, r') => (mkResponse 500 (BError (message e)), r')
  end.

Definition has_sheet_id (c : Config) : bool := truthy_str (GOOGLE_SHEETS_ID c).
Definition has_access_token (c : Config) : bool :=
  truthy (credentials c !! "access_token").

Definition Sheet1_A_G : Range := mkRange "Sheet1" 0 6 AllRows.
Definition Sheet1_A_A : Range := mkRange "Sheet1" 0 0 AllRows.
Definition Sheet1_D_G (n : option Z) : Range := mkRange "Sheet1" 3 6 (RowAt n).
Definition Settings_A1_D1 : Range := mkRange "Settings" 0 3 (RowAt (Some 1)).
Definition Settings_A2_D2 : Range := mkRange "Settings" 0 3 (RowAt (Some 2)).

(** *** The completion API *)

Inductive Content : Type :=
| TextPrompt (food : option json)
| ImagePrompt (media_type data : string) (context : option json).

(** What [JSON.parse(message.content[0].text)] comes to.  A parsed
    primitive or array has none of the properties read, like an empty
    object. *)
Inductive Reply : Type :=
| Rejected (message : string)
| Malformed (message : string)
| ParsedNull
| ParsedObject (nutrition : gmap string json).

(** The regular expression [/^data:(image\/\w+);base64,/]: the media
    type and what follows the header. *)
Definition is_word (c : ascii) : bool :=
  let n := nat_of_ascii c in
  (((48 <=? n) && (n <=? 57)) || ((65 <=? n) && (n <=? 90)) ||
   ((97 <=? n) && (n <=? 122)) || (n =? 95))%nat.

Fixpoint strip_prefix (p s : string) : option string :=
  match p, s with
  | EmptyString, _ => Some s
  | String a p', String b s' => if Ascii.eqb a b then strip_prefix p' s' else None
  | _, EmptyString => None
  end.

Fixpoint word_run (s : string) (acc : string) : string * string :=
  match s with
  | String c r => if is_word c then word_run r (acc ++ String c "") else (acc, s)
  | EmptyString => (acc, s)
  end.

Definition data_url_header (image : string) : option (string * string) :=
  match strip_prefix "data:image/" image with
  | Some r =>
      match word_run r "" with
      | (EmptyString, _) => None
      | (w, r') =>
          match strip_prefix ";base64," r' with
          | Some payload => Some ("image/" ++ w, payload)
          | None => None
          end
      end
  | None => None
  end.

Definition image_content (image : string) (food : option json) : Content :=
  let imageData := match data_url_header image with
                   | Some (_, payload) => payload
                   | None => image
                   end in
  let mediaType := match data_url_header image with
                   | Some (mt, _) => mt
                   | None => "image/jpeg"
                   end in
  ImagePrompt mediaType imageData food.

(** [const nutrition = JSON.parse(responseText)] after the awaited call. *)
Definition estimate (llm : Content -> Reply) (c : Content)
    : M (option (gmap string json)) :=
  match llm c with
  | Rejected m => throw (Error m)
  | Malformed m => throw (Error m)
  | ParsedNull => ret None
  | ParsedObject o => ret (Some o)
  end.

(** [nutrition.k]; reading a property of [null] is a TypeError. *)
Definition prop (nutrition : option (gmap string json)) (k : string) : M (option json) :=
  match nutrition with
  | Some o => ret (o !! k)
  | None => throw (Error ("Cannot read properties of null (reading '" ++ k ++ "')"))
  end.

Definition or_throw {A : Type} (x : option A) (msg : string) : M A :=
  match x with
  | Some a => ret a
  | None => throw (Error msg)
  end.

(** *** POST /analyze *)

Definition post_analyze (c : Config) (llm : Content -> Reply)
    (req_body : gmap string json) : Remote -> Response * Remote :=
  handler (
    let food := req_body !! "food" in
    let selectedDate := req_body !! "date" in
    let image := req_body !! "image" in
    let timezone := req_body !! "timezone" in
    if negb (truthy food) && negb (truthy image) then
      status_json 400 (BError "Food description or image is required")
    else
      let tz := if truthy timezone then default (JStr "UTC") timezone else JStr "UTC" in
      messageContent ←
        (if truthy image then
           match image with
           | Some (JStr s) => ret (image_content s food)
           | _ => throw (Error "image.replace is not a function")
           end
         else ret (TextPrompt food));
      nutrition ← estimate llm messageContent;
      date ← (if truthy selectedDate then ret selectedDate
              else d ← or_throw (toLocaleDateString (host c) tz) "Invalid time zone specified";
                   ret (Some (JStr d)));
      time ← or_throw (toLocaleTimeString (host c) tz) "Invalid time zone specified";
      nfood ← prop nutrition "food";
      let foodName := or_else nfood food in
      calories ← prop nutrition "calories";
      protein ← prop nutrition "protein";
      carbs ← prop nutrition "carbs";
      fat ← prop nutrition "fat";
      json_ (BAnalysis foodName calories protein carbs fat date time false)).

(** *** POST /confirm *)

Definition post_confirm (c : Config) (req_body : gmap string json)
    : Remote -> Response * Remote :=
  handler (
    let food := req_body !! "food" in
    let calories := req_body !! "calories" in
    let protein := req_body !! "protein" in
    let carbs := req_body !! "carbs" in
    let fat := req_body !! "fat" in
    let date := req_body !! "date" in
    let time := req_body !! "time" in
    if negb (truthy food) then
      status_json 400 (BError "Food description is required")
    else
      (* the catch sees the assignments made before the throw: [logged]
         is already true when the read of column A fails *)
      '(logged, rowIndex) ←
        (if has_sheet_id c && has_access_token c then
           try_catch
             (api_values_append Sheet1_A_G
                [[date; time; food; calories; protein; carbs; fat]];;
              try_catch
                (values ← api_values_get Sheet1_A_A;
                 let n := match values with
                          | Some vs => Z.of_nat (length vs)
                          | None => 0
                          end in
                 ret (true, Some ((if n =? 0 then 1 else n) - 2)))
                (fun _ => ret (true, None)))
             (fun _ => ret (false, None))
         else ret (false, None));
      json_ (BConfirm food calories protein carbs fat date time logged rowIndex)).

(** *** GET /summary *)

Record Acc : Type := mkAcc {
  a_calories : number;
  a_protein : number;
  a_carbs : number;
  a_fat : number;
  a_count : Z;
  dailyTotals : gmap string Macros
}.

Definition acc0 : Acc := mkAcc zero zero zero zero 0 ∅.

(** [row[0]?.toLowerCase() === 'date'] *)
Definition is_date_header (cell : option string) : bool :=
  match cell with
  | Some s => String.eqb (toLowerCase s) "date"
  | None => false
  end.

(** A property key made from a cell: [undefined] becomes ["undefined"]. *)
Definition key_of (cell : option string) : string := default "undefined" cell.

(** [parseInt(row[3]) || 0] and its like *)
Definition row_macros (row : Row) : Macros :=
  mkMacros (number_or (parseInt_number (row !! 3%nat)) zero)
           (number_or (parseInt_number (row !! 4%nat)) zero)
           (number_or (parseInt_number (row !! 5%nat)) zero)
           (number_or (parseInt_number (row !! 6%nat)) zero).

Definition add_macros (a b : Macros) : Macros :=
  mkMacros (num_add (m_calories a) (m_calories b))
           (num_add (m_protein a) (m_protein b))
           (num_add (m_carbs a) (m_carbs b))
           (num_add (m_fat a) (m_fat b)).

(** The body of the [rows.forEach] callback. *)
Definition summary_step (h : Host) (startDate nowInTz : Z)
    (index : nat) (row : Row) (a : Acc) : Acc :=
  if (index =? 0)%nat && is_date_header (row !! 0%nat) then a
  else
    match Date_parse h (row !! 0%nat) with
    | None => a
    | Some rowDate =>
        if (startDate <=? rowDate) && (rowDate <=? nowInTz) then
          let m := row_macros row in
          let dateKey := key_of (row !! 0%nat) in
          let day := default (mkMacros zero zero zero zero)
                             (dailyTotals a !! dateKey) in
          mkAcc (num_add (a_calories a) (m_calories m))
                (num_add (a_protein a) (m_protein m))
                (num_add (a_carbs a) (m_carbs m))
                (num_add (a_fat a) (m_fat m))
                (a_count a + 1)
                (<[dateKey := add_macros day m]> (dailyTotals a))
        else a
    end.

Fixpoint forEach {A St : Type} (f : nat -> A -> St -> St) (index : nat)
    (l : list A) (s : St) : St :=
  match l with
  | [] => s
  | x :: r => forEach f (S index) r (f index x s)
  end.

(** [period === p] *)
Definition period_is (period : option string) (p : string) : bool :=
  match period with
  | Some s => String.eqb s p
  | None => false
  end.

Definition start_of (period : option string) (nowInTz : Wall) : Z :=
  let y := getFullYear nowInTz in
  let m := getMonth nowInTz in
  let d := getDate nowInTz in
  if period_is period "daily" then new_Date y m d
  else if period_is period "weekly" then new_Date y m (d - 7)
  else if period_is period "monthly" then new_Date y (m - 1) d
  else new_Date y m d.

(** [Math.round(total / daysCount)] *)
Definition average (total : number) (days : Z) : number :=
  Math_round (num_div total (Number_of days)).

Definition summarize (h : Host) (period : option string) (nowInTz : Wall)
    (rows : list Row) : Summary :=
  let startDate := start_of period nowInTz in
  let a := forEach (summary_step h startDate (getTime nowInTz)) 0 rows acc0 in
  let n := Z.of_nat (size (dailyTotals a)) in
  let daysCount := if n =? 0 then 1 else n in
  mkSummary period (a_calories a) (a_protein a) (a_carbs a) (a_fat a)
            (a_count a) daysCount
            (average (a_calories a) daysCount) (average (a_protein a) daysCount)
            (average (a_carbs a) daysCount) (average (a_fat a) daysCount).

Definition get_summary (c : Config) (q_period q_timezone : option string)
    : Remote -> Response * Remote :=
  handler (
    let tz := if truthy_str q_timezone then default "UTC" q_timezone else "UTC" in
    if negb (has_sheet_id c) || negb (has_access_token c) then
      json_ BNotAuthenticated
    else
      values ← api_values_get Sheet1_A_G;
      let rows := default [] values in
      nowInTz ← or_throw (wall_clock (host c) (JStr tz)) "Invalid time zone specified";
      json_ (BSummary (summarize (host c) q_period nowInTz rows))).

(** *** GET /entries *)

Definition has_header (rows : list Row) : bool :=
  match rows with
  | row :: _ => is_date_header (row !! 0%nat)
  | [] => false
  end.

Definition entry_of (hasHeader : bool) (ri : Row * nat) : Entry :=
  let '(row, index) := ri in
  mkEntry (if hasHeader then Z.of_nat index - 1 else Z.of_nat index)
          (row !! 0%nat) (row !! 1%nat) (row !! 2%nat)
          (parseInt_or 0 (row !! 3%nat)) (parseInt_or 0 (row !! 4%nat))
          (parseInt_or 0 (row !! 5%nat)) (parseInt_or 0 (row !! 6%nat))
          true.

Definition cell_eqb (a b : option string) : bool :=
  match a, b with
  | Some x, Some y => String.eqb x y
  | None, None => true
  | _, _ => false
  end.

Definition entry_filter (hasHeader : bool) (date : option string) (ri : Row * nat) : bool :=
  let '(row, index) := ri in
  if (index =? 0)%nat && hasHeader then false
  else cell_eqb (row !! 0%nat) date.

Definition list_entries (date : option string) (rows : list Row) : list Entry :=
  let hasHeader := has_header rows in
  map (entry_of hasHeader)
    (List.filter (entry_filter hasHeader date)
       (imap (fun index row => (row, index)) rows)).

Definition get_entries (c : Config) (q_date : option string)
    : Remote -> Response * Remote :=
  handler (
    if negb (has_sheet_id c) || negb (has_access_token c) then
      json_ (BEntries [] false)
    else
      values ← api_values_get Sheet1_A_G;
      let rows := default [] values in
      json_ (BEntries (list_entries q_date rows) true)).

(** *** DELETE /entries/:rowIndex and PUT /entries/:rowIndex *)

Definition plus2 (n : option Z) : option Z := (fun k => k + 2) <$> n.

Definition delete_entry (c : Config) (p_rowIndex : string)
    : Remote -> Response * Remote :=
  handler (
    if negb (has_sheet_id c) || negb (has_access_token c) then
      status_json 401 (BError "Not authenticated")
    else
      let sheetRowIndex := plus2 (parseInt (Some p_rowIndex)) in
      api_deleteDimension 0 ((fun n => n - 1) <$> sheetRowIndex) sheetRowIndex;;
      json_ BSuccess).

Definition put_entry (c : Config) (p_rowIndex : string) (req_body : gmap string json)
    : Remote -> Response * Remote :=
  handler (
    let calories := req_body !! "calories" in
    let protein := req_body !! "protein" in
    let carbs := req_body !! "carbs" in
    let fat := req_body !! "fat" in
    if negb (has_sheet_id c) || negb (has_access_token c) then
      status_json 401 (BError "Not authenticated")
    else
      let sheetRowIndex := plus2 (parseInt (Some p_rowIndex)) in
      api_values_update (Sheet1_D_G sheetRowIndex) [[calories; protein; carbs; fat]];;
      json_ BSuccess).

(** *** GET /settings/targets and PUT /settings/targets *)

Definition default_targets : Body := BTargets 1800 180 115 65.

Definition get_targets (c : Config) : Remote -> Response * Remote :=
  handler (
    if negb (has_sheet_id c) || negb (has_access_token c) then
      status_json 401 (BError "Not authenticated")
    else
      try_catch
        (values ← api_values_get Settings_A2_D2;
         match values with
         | Some (row :: _) =>
             json_ (BTargets (parseInt_or 1800 (row !! 0%nat))
                             (parseInt_or 180 (row !! 1%nat))
                             (parseInt_or 115 (row !! 2%nat))
                             (parseInt_or 65 (row !! 3%nat)))
         | _ => json_ default_targets
         end)
        (fun _ => json_ default_targets)).

Definition put_targets (c : Config) (req_body : gmap string json)
    : Remote -> Response * Remote :=
  handler (
    let calories := req_body !! "calories" in
    let protein := req_body !! "protein" in
    let carbs := req_body !! "carbs" in
    let fat := req_body !! "fat" in
    if negb (has_sheet_id c) || negb (has_access_token c) then
      status_json 401 (BError "Not authenticated")
    else
      titles ← api_spreadsheets_get;
      (if negb (existsb (String.eqb "Settings") titles) then
         api_addSheet "Settings";;
         api_values_update Settings_A1_D1
           [[Some (JStr "Calories"); Some (JStr "Protein");
             Some (JStr "Carbs"); Some (JStr "Fat")]]
       else ret tt);;
      api_values_update Settings_A2_D2 [[calories; protein; carbs; fat]];;
      json_ BSuccess).

End Server.

(** ** The earlier server (src/server.js)

    It has no /confirm route: its POST /analyze logs the estimate
    itself. *)

Module Legacy.

Import Server.

Definition post_analyze (c : Config) (llm : Content -> Reply)
    (req_body : gmap string json) : Remote -> Response * Remote :=
  handler (
    let food := req_body !! "food" in
    if negb (truthy food) then
      status_json 400 (BError "Food description is required")
    else
      nutrition ← estimate llm (TextPrompt food);
      let date := serverDateString (host c) in
      let time := serverTimeString (host c) in
      logged ←
        (if has_sheet_id c && has_access_token c then
           try_catch
             (calories ← prop nutrition "calories";
              protein ← prop nutrition "protein";
              carbs ← prop nutrition "carbs";
              fat ← prop nutrition "fat";
              api_values_append Sheet1_A_G
                [[Some (JStr date); Some (JStr time); food;
                  calories; protein; carbs; fat]];;
              ret true)
             (fun _ => ret false)
         else ret false);
      (* { food, ...nutrition, logged } *)
      let o := match food with
               | Some f => {[ "food" := f ]}
               | None => ∅
               end in
      json_ (BObject (<["logged" := JBool logged]> (spread o (default ∅ nutrition))))).

End Legacy.

(** ** Vocabulary of the specification

    The notions the properties below are stated with, written from the
    specification's wording rather than from the handlers. *)

Module Spec.

Import Server.

(** "Authorized AND a configured spreadsheet identifier" *)
Definition authorized (c : Config) : Prop :=
  has_sheet_id c = true /\ has_access_token c = true.

(** What a read of the whole ledger range returns. *)
Definition ledger (b : Book) : list Row :=
  match read_range b Sheet1_A_G with
  | inr (Some vs) => vs
  | _ => []
  end.

(** The content of the cell in row [i], column [j] of a sheet; a cell
    never written is empty. *)
Definition nth_or {A : Type} (d : A) (l : list A) (i : nat) : A :=
  default d (l !! i).

Definition cell (rows : list Row) (i j : nat) : string :=
  nth_or "" (nth_or [] rows i) j.

(** The summary window: a row is matched when it is not the header, its
    date cell parses and the parsed date lies in [start, now]. *)
Definition in_window (h : Host) (start now : Z) (row : Row) : bool :=
  match Date_parse h (row !! 0%nat) with
  | Some t => (start <=? t) && (t <=? now)
  | None => false
  end.

Definition is_header_row (index : nat) (row : Row) : bool :=
  (index =? 0)%nat && is_date_header (row !! 0%nat).

Fixpoint matched_from (h : Host) (start now : Z) (index : nat) (rows : list Row)
    : list Row :=
  match rows with
  | [] => []
  | row :: rest =>
      (if negb (is_header_row index row) && in_window h start now row
       then [row] else [])
      ++ matched_from h start now (S index) rest
  end.

Definition matched_rows (h : Host) (start now : Z) (rows : list Row) : list Row :=
  matched_from h start now 0 rows.

(** The number a macro cell stands for: the one [parseInt] reads, and 0
    when the cell is missing, holds no integer, or reads as zero. *)
Definition coerced (j : nat) (row : Row) : number :=
  match parseInt_number (row !! j) with
  | SpecFloat.S754_nan | SpecFloat.S754_zero _ => zero
  | x => x
  end.

(** The sum of a column over rows, added up in row order. *)
Definition total_from (j : nat) (ms : list Row) (start : number) : number :=
  fold_left (fun sum row => num_add sum (coerced j row)) ms start.

Definition total (j : nat) (ms : list Row) : number := total_from j ms zero.

(** The date string of a row, the text of its first cell.  A row with no
    first cell goes under the word a missing value prints as. *)
Definition date_string (row : Row) : string :=
  match row !! 0%nat with
  | Some s => s
  | None => "undefined"
  end.

Definition distinct_dates (ms : list Row) : gset string :=
  list_to_set (map date_string ms).

(** "the count of distinct date-string keys among matched rows, taken as
    1 when no rows match" *)
Definition days_count (ms : list Row) : Z :=
  if decide (ms = []) then 1 else Z.of_nat (size (distinct_dates ms)).

(** Local midnight of the clock's calendar date, and of the same day of
    the month one month earlier. *)
Definition midnight (w : Wall) : Z :=
  MakeDate (MakeDay (getFullYear w) (getMonth w) (getDate w)) 0.

Definition previous_month (w : Wall) : Z * Z :=
  if getMonth w =? 0 then (getFullYear w - 1, 11)
  else (getFullYear w, getMonth w - 1).

(** The [logged] field of a response body, when it has one. *)
Definition logged_flag (b : Body) : option bool :=
  match b with
  | BAnalysis _ _ _ _ _ _ _ l => Some l
  | BConfirm _ _ _ _ _ _ _ l _ => Some l
  | BObject o => match o !! "logged" with
                 | Some (JBool l) => Some l
                 | _ => None
                 end
  | _ => None
  end.

(** The row the earlier server's POST /analyze sends to the ledger. *)
Definition legacy_row (c : Config) (b o : gmap string json) : list (option json) :=
  [Some (JStr (serverDateString (host c))); Some (JStr (serverTimeString (host c)));
   b !! "food"; o !! "calories"; o !! "protein"; o !! "carbs"; o !! "fat"].

(** The entries left after the one at [k] is gone: later ones move up. *)
Definition shift_down (k : Z) (e : Entry) : Entry :=
  if k <? rowIndex e then
    mkEntry (rowIndex e - 1) (e_date e) (e_time e) (e_food e)
            (e_calories e) (e_protein e) (e_carbs e) (e_fat e) (e_logged e)
  else e.

Definition without (k : Z) (es : list Entry) : list Entry :=
  map (shift_down k) (List.filter (fun e => negb (rowIndex e =? k)) es).

(** The entries among the data rows [data], the first of which is data
    row [i], that carry the date. *)
Fixpoint data_entries (date : option string) (i : nat) (data : list Row)
    : list Entry :=
  match data with
  | [] => []
  | row :: rest =>
      (if cell_eqb (row !! 0%nat) date then [entry_of true (row, S i)] else [])
      ++ data_entries date (S i) rest
  end.

End Spec.

Import Server Spec.

(** ** Sample data

    A small ledger, a host whose clock reads 10 March 2024, 15:00, and
    requests, used to run the handlers on concrete inputs. *)

Module Sample.

Definition refreshed : gmap string json :=
  {[ "access_token" := JStr "ya29.new"; "expiry_date" := JNum 1710000000000 ]}.

Definition stored : gmap string json :=
  {[ "access_token" := JStr "ya29.old"; "refresh_token" := JStr "1//rt" ]}.

Definition header : Row :=
  ["Date"; "Time"; "Food"; "Calories"; "Protein"; "Carbs"; "Fat"].

Definition rows0 : list Row :=
  [ header;
    ["3/10/2024"; "08:00 AM"; "oatmeal"; "150"; "5"; "27"; "3"];
    ["3/9/2024"; "07:30 PM"; "rice bowl"; "520"; "18"; "80"; "12"];
    ["3/10/2024"; "12:15 PM"; "egg salad"; "n/a"; "13"; ""; "22"];
    ["3/10/2024"; "06:40 PM"; "apple"; "95" ] ].

Definition book0 : Book := mkBook rows0 None.

Definition clock (y m d hh mm : Z) : Host :=
  mkHost parse_MDY (fun _ => Some (mkWall y m d hh mm 0))
         (fun _ => Some (decimal (m + 1) ++ "/" ++ decimal d ++ "/" ++ decimal y))
         (fun _ => Some "03:00 PM")
         (decimal (m + 1) ++ "/" ++ decimal d ++ "/" ++ decimal y) "03:00 PM".

Definition host0 : Host := clock 2024 2 10 15 0.

Definition connected : Config :=
  mkConfig (Some "1AbC") {[ "access_token" := JStr "ya29.old" ]} host0.

Definition disconnected : Config := mkConfig (Some "1AbC") ∅ host0.

Definition online : Remote := mkRemote book0 [] (fun _ => false).
Definition offline : Remote := mkRemote book0 [] (fun _ => true).

Definition meal : gmap string json :=
  {[ "food" := JStr "banana"; "calories" := JNum 105; "protein" := JNum 1;
     "carbs" := JNum 27; "fat" := JNum 0;
     "date" := JStr "3/10/2024"; "time" := JStr "03:00 PM" ]}.

Definition macros : gmap string json :=
  {[ "calories" := JNum 160; "protein" := JNum 6; "carbs" := JNum 28;
     "fat" := JNum 3 ]}.

(** The entries of 10 March in [rows0]. *)
Definition listed : list Entry :=
  [ mkEntry 0 (Some "3/10/2024") (Some "08:00 AM") (Some "oatmeal") 150 5 27 3 true;
    mkEntry 2 (Some "3/10/2024") (Some "12:15 PM") (Some "egg salad") 0 13 0 22 true;
    mkEntry 3 (Some "3/10/2024") (Some "06:40 PM") (Some "apple") 95 0 0 0 true ].

(** The ledger and the clock on the last day of March. *)
Definition rows_march : list Row :=
  [ header;
    ["2/29/2024"; "08:00 AM"; "oatmeal"; "150"; "5"; "27"; "3"];
    ["3/1/2024"; "07:30 PM"; "rice bowl"; "520"; "18"; "80"; "12"];
    ["3/2/2024"; "12:15 PM"; "egg salad"; "320"; "13"; "4"; "22"] ].

Definition noon_march_31 : Wall := mkWall 2024 2 31 12 0 0.

Definition estimated : gmap string json :=
  {[ "calories" := JNum 105; "protein" := JNum 1;
     "carbs" := JNum 27; "fat" := JNum 0 ]}.

Definition llm (_ : Content) : Reply := ParsedObject estimated.

(** A stored record with a scope, and a refresh payload whose
    [refresh_token] is the empty string. *)
Definition granted : gmap string json :=
  {[ "access_token" := JStr "ya29.old"; "refresh_token" := JStr "1//rt";
     "scope" := JStr "spreadsheets" ]}.

Definition blank : gmap string json :=
  {[ "access_token" := JStr "ya29.new"; "refresh_token" := JStr "" ]}.

(** Three entries of 10 March, one of them with 2^53 calories. *)
Definition rows_large : list Row :=
  [ ["3/10/2024"; "08:00 AM"; "feast"; "9007199254740992"];
    ["3/10/2024"; "12:15 PM"; "mint"; "1"];
    ["3/10/2024"; "06:40 PM"; "mint"; "1"] ].

End Sample.

(** ** Authorization flow and start-up

    The token file is absent, holds the JSON text of a record, or holds
    text that [JSON.parse] rejects; writing or unlinking it throws when
    the file system is read-only. *)

Module Auth.

Record Env : Type := mkEnv {
  RAILWAY_PUBLIC_DOMAIN : option string;
  VERCEL_URL : option string;
  PORT : option string
}.

(** [process.env.PORT || 3000], as the template literal prints it. *)
Definition port (e : Env) : string :=
  if truthy_str (PORT e) then default "3000" (PORT e) else "3000".

Definition getCallbackUrl (e : Env) : string :=
  if truthy_str (RAILWAY_PUBLIC_DOMAIN e) then
    "https://" ++ default "" (RAILWAY_PUBLIC_DOMAIN e) ++ "/auth/google/callback"
  else if truthy_str (VERCEL_URL e) then
    "https://" ++ default "" (VERCEL_URL e) ++ "/auth/google/callback"
  else "http://localhost:" ++ port e ++ "/auth/google/callback".

Inductive File : Type :=
| Absent
| Corrupt
| Holds (record : gmap string json).

Record State : Type := mkState {
  credentials : gmap string json;   (* oauth2Client.credentials *)
  token_file : File;                (* TOKEN_PATH *)
  read_only : bool                  (* the file system refuses writes *)
}.

Inductive FsError : Type :=
| EROFS
| SyntaxError
| ENOENT.

Definition fs_message (e : FsError) : string :=
  match e with
  | EROFS => "EROFS: read-only file system"
  | SyntaxError => "Unexpected token in JSON"
  | ENOENT => "ENOENT: no such file or directory"
  end.

(** [fs.existsSync(TOKEN_PATH)] *)
Definition existsSync (st : State) : bool :=
  match token_file st with
  | Absent => false
  | _ => true
  end.

(** [oauth2Client.setCredentials(tokens)] *)
Definition setCredentials (tokens : gmap string json) (st : State) : State :=
  mkState tokens (token_file st) (read_only st).

(** [saveTokens(tokens)] *)
Definition saveTokens (tokens : gmap string json) (st : State) : FsError + State :=
  if read_only st then inl EROFS
  else inr (mkState (credentials st) (Holds tokens) (read_only st)).

(** [fs.unlinkSync(TOKEN_PATH)] *)
Definition unlinkSync (st : State) : FsError + State :=
  if read_only st then inl EROFS
  else inr (mkState (credentials st) Absent (read_only st)).

(** [loadTokens()]: its result and the state it leaves. *)
Definition loadTokens (st : State) : bool * State :=
  if existsSync st then
    match token_file st with
    | Holds tokens => (true, setCredentials tokens st)
    | _ => (false, st)          (* JSON.parse threw; the catch logs it *)
    end
  else (false, st).

Inductive Body : Type :=
| BAuthenticated (authenticated : bool)
| BSuccess
| BError (error : string).

Inductive Reply : Type :=
| Json (status : Z) (body : Body)
| Redirect (location : string).

(** GET /auth/status *)
Definition get_status (st : State) : Reply :=
  Json 200 (BAuthenticated (truthy (credentials st !! "access_token"))).

(** [JSON.parse(fs.readFileSync(TOKEN_PATH, 'utf8'))] *)
Definition readTokens (st : State) : FsError + gmap string json :=
  match token_file st with
  | Holds tokens => inr tokens
  | Corrupt => inl SyntaxError
  | Absent => inl ENOENT
  end.

(** The listener registered with [oauth2Client.on('tokens', ...)], on the
    token file of a state. *)
Definition on_tokens (tokens : gmap string json) (st : State) : FsError + State :=
  if truthy (tokens !! "refresh_token") then saveTokens tokens st
  else
    match readTokens st with
    | inr existingTokens => saveTokens (spread existingTokens tokens) st
    | inl e => inl e
    end.

(** [oauth2Client.getToken(code)]: [exchange] is the provider's answer to
    the code, a rejection or the tokens.  The client emits ['tokens'] with
    the tokens before it resolves, so the listener runs inside the call,
    and an exception of the listener rejects it. *)
Definition getToken (exchange : option string -> string + gmap string json)
    (code : option string) (st : State) : string + gmap string json * State :=
  match exchange code with
  | inl err => inl err
  | inr tokens =>
      match on_tokens tokens st with
      | inr st1 => inr (tokens, st1)
      | inl e => inl (fs_message e)
      end
  end.

(** GET /auth/google/callback *)
Definition get_callback (exchange : option string -> string + gmap string json)
    (code : option string) (st : State) : Reply * State :=
  match getToken exchange code st with
  | inl _ => (Redirect "/?error=auth_failed", st)
  | inr (tokens, st0) =>
      let st1 := setCredentials tokens st0 in
      match saveTokens tokens st1 with
      | inr st2 => (Redirect "/?authenticated=true", st2)
      | inl _ => (Redirect "/?error=auth_failed", st1)
      end
  end.

(** POST /auth/disconnect *)
Definition post_disconnect (st : State) : Reply * State :=
  match (if existsSync st then unlinkSync st else inr st) with
  | inr st1 => (Json 200 BSuccess, setCredentials ∅ st1)
  | inl e => (Json 500 (BError (fs_message e)), st)
  end.

(** The configuration the guarded routes see in a state. *)
Definition config (sheet_id : option string) (h : Host) (st : State) : Server.Config :=
  Server.mkConfig sheet_id (credentials st) h.

(** The refresh listener run on a series of payloads; a throw leaves the
    disk as it was. *)
Definition refresh_all (events : list (gmap string json))
    (d : CredentialStore.Disk) : CredentialStore.Disk :=
  fold_left (fun d tokens =>
               CredentialStore.disk_after (CredentialStore.on_tokens tokens d) d)
            events d.

End Auth.

(** ** Further vocabulary *)

Module Notions.

(** Every character of [s] is a word character ([\w]). *)
Fixpoint all_word (s : string) : bool :=
  match s with
  | EmptyString => true
  | String c r => is_word c && all_word r
  end.

(** The row POST /confirm sends to the ledger. *)
Definition confirm_row (b : gmap string json) : list (option json) :=
  [b !! "date"; b !! "time"; b !! "food"; b !! "calories";
   b !! "protein"; b !! "carbs"; b !! "fat"].

(** A target as it is read back: 0 is falsy and gives way to the default. *)
Definition read_back (n d : Z) : Z := if n =? 0 then d else n.

(** The values and the header row PUT /settings/targets writes. *)
Definition target_values (b : gmap string json) : list (option json) :=
  [b !! "calories"; b !! "protein"; b !! "carbs"; b !! "fat"].

Definition target_header : list (option json) :=
  [Some (JStr "Calories"); Some (JStr "Protein");
   Some (JStr "Carbs"); Some (JStr "Fat")].

End Notions.

Import Notions.

(** * Properties *)

(** ** Credential store *)

Lemma spread_lookup_new (a b : gmap string json) (k : string) (v : json) :
  b !! k = Some v -> spread a b !! k = Some v.
Proof. intros H. unfold spread. by apply lookup_union_Some_l. Qed.

Lemma spread_lookup_old (a b : gmap string json) (k : string) :
  b !! k = None -> spread a b !! k = a !! k.
Proof. intros H. unfold spread. by apply lookup_union_r. Qed.

(** C2, as amended.  A refresh whose payload has no [refresh_token]
    field leaves the stored [refresh_token] as it was: when a record is
    stored, the new record is the payload's fields merged over it, and
    with no record on disk the read throws.  A payload whose
    [refresh_token] is truthy replaces the record wholesale.  A payload
    whose [refresh_token] is there but falsy is merged like the first,
    and its value takes the place of the stored [refresh_token]; with no
    record on disk the read throws. *)
Theorem C2_refresh_token_persists (tokens : gmap string json) (d : CredentialStore.Disk) :
  (tokens !! "refresh_token" = None ->
     CredentialStore.stored_refresh_token
       (CredentialStore.disk_after (CredentialStore.on_tokens tokens d) d)
     = CredentialStore.stored_refresh_token d /\
     (d = None -> CredentialStore.on_tokens tokens d = inl CredentialStore.ENOENT) /\
     forall existing, d = Some existing ->
       exists merged,
         CredentialStore.on_tokens tokens d = inr (Some merged) /\
         (forall k v, tokens !! k = Some v -> merged !! k = Some v) /\
         (forall k, tokens !! k = None -> merged !! k = existing !! k)) /\
  (truthy (tokens !! "refresh_token") = true ->
     CredentialStore.on_tokens tokens d = inr (Some tokens)) /\
  (forall v, tokens !! "refresh_token" = Some v -> truthy (Some v) = false ->
     (d = None -> CredentialStore.on_tokens tokens d = inl CredentialStore.ENOENT) /\
     forall existing, d = Some existing ->
       exists merged,
         CredentialStore.on_tokens tokens d = inr (Some merged) /\
         (forall k w, tokens !! k = Some w -> merged !! k = Some w) /\
         (forall k, tokens !! k = None -> merged !! k = existing !! k) /\
         CredentialStore.stored_refresh_token
           (CredentialStore.disk_after (CredentialStore.on_tokens tokens d) d)
         = Some v).
Proof.
  split; [|split].
  - intros Hno. unfold CredentialStore.on_tokens. rewrite Hno. simpl.
    split; [|split].
    + destruct d as [existing|]; simpl; [|done].
      by rewrite spread_lookup_old.
    + by intros ->.
    + intros existing ->. simpl. eexists. split; [done|].
      split; [apply spread_lookup_new | apply spread_lookup_old].
  - intros Hrt. unfold CredentialStore.on_tokens. by rewrite Hrt.
  - intros v Hv Hf. unfold CredentialStore.on_tokens. rewrite Hv, Hf.
    split; [by intros ->|].
    intros existing ->. simpl. eexists. split; [done|].
    split; [apply spread_lookup_new|]. split; [apply spread_lookup_old|].
    by apply spread_lookup_new.
Qed.

Lemma C2_refresh_token_persists_witness :
  CredentialStore.stored_refresh_token
    (CredentialStore.disk_after
       (CredentialStore.on_tokens Sample.refreshed (Some Sample.stored))
       (Some Sample.stored))
  = Some (JStr "1//rt") /\
  CredentialStore.on_tokens Sample.stored (Some Sample.refreshed)
  = inr (Some Sample.stored) /\
  CredentialStore.on_tokens Sample.blank None = inl CredentialStore.ENOENT.
Proof.
  split; [|split].
  - destruct (C2_refresh_token_persists Sample.refreshed (Some Sample.stored)) as [H _].
    destruct (H eq_refl) as [-> _]. reflexivity.
  - destruct (C2_refresh_token_persists Sample.stored (Some Sample.refreshed))
      as (_ & H & _).
    apply H. reflexivity.
  - destruct (C2_refresh_token_persists Sample.blank None) as (_ & _ & H).
    destruct (H (JStr "") eq_refl eq_refl) as [Hnone _].
    apply Hnone. reflexivity.
Defined.

(** C2, as stated, fails on a payload whose [refresh_token] is the empty
    string: the payload does contain the field, yet the record is not
    overwritten wholesale, it keeps the stored scope; and the stored
    [refresh_token] does not persist, the empty string takes its place. *)
Lemma C2_falsy_refresh_token_counterexample :
  Sample.blank !! "refresh_token" = Some (JStr "") /\
  CredentialStore.on_tokens Sample.blank (Some Sample.granted)
    = inr (Some (<["scope" := JStr "spreadsheets"]> Sample.blank)) /\
  CredentialStore.on_tokens Sample.blank (Some Sample.granted)
    <> inr (Some Sample.blank) /\
  CredentialStore.stored_refresh_token (Some Sample.granted) = Some (JStr "1//rt") /\
  CredentialStore.stored_refresh_token
    (CredentialStore.disk_after
       (CredentialStore.on_tokens Sample.blank (Some Sample.granted))
       (Some Sample.granted))
  = Some (JStr "").
Proof.
  repeat split; try (vm_compute; reflexivity).
  intros H.
  apply (f_equal (fun r : CredentialStore.Exn + CredentialStore.Disk =>
                    match r with
                    | inr (Some t) => t !! "scope"
                    | _ => None
                    end)) in H.
  vm_compute in H. discriminate.
Qed.

(** ** Running the monad *)

Ltac run :=
  unfold handler, json_, status_json, api_values_get, api_values_append,
    api_values_update, api_deleteDimension, api_addSheet, api_spreadsheets_get,
    remote, try_catch, or_throw, estimate, prop,
    mbind, M_bind, mret, M_ret, bind, ret, throw, writes in *;
  simpl in *.

Lemma authorized_guard (c : Config) :
  authorized c -> negb (has_sheet_id c) || negb (has_access_token c) = false.
Proof. intros [-> ->]. reflexivity. Qed.

Lemma unauthorized_guard (c : Config) :
  has_sheet_id c = false \/ has_access_token c = false ->
  negb (has_sheet_id c) || negb (has_access_token c) = true.
Proof. intros [-> | ->]; [reflexivity | apply orb_true_r]. Qed.

(** ** Guards *)

(** C4.  Without an access token or without a spreadsheet id, the entry
    and target routes answer 401 with an error body, the summary and the
    entries listing answer 200 with [authenticated: false], and the remote
    end is left as it was: no call is made. *)
Theorem C4_unauthenticated_short_circuit (c : Config) (r : Remote) :
  has_sheet_id c = false \/ has_access_token c = false ->
  (forall p, delete_entry c p r = (mkResponse 401 (BError "Not authenticated"), r)) /\
  (forall p b, put_entry c p b r = (mkResponse 401 (BError "Not authenticated"), r)) /\
  get_targets c r = (mkResponse 401 (BError "Not authenticated"), r) /\
  (forall b, put_targets c b r = (mkResponse 401 (BError "Not authenticated"), r)) /\
  (forall p tz, get_summary c p tz r = (mkResponse 200 BNotAuthenticated, r)) /\
  (forall d, get_entries c d r = (mkResponse 200 (BEntries [] false), r)).
Proof.
  intros H. apply unauthorized_guard in H.
  unfold delete_entry, put_entry, get_targets, put_targets, get_summary, get_entries.
  rewrite H. repeat split; intros; reflexivity.
Qed.

Lemma C4_unauthenticated_short_circuit_witness :
  delete_entry Sample.disconnected "0" Sample.online
    = (mkResponse 401 (BError "Not authenticated"), Sample.online) /\
  get_summary Sample.disconnected (Some "daily") None Sample.online
    = (mkResponse 200 BNotAuthenticated, Sample.online).
Proof.
  destruct (C4_unauthenticated_short_circuit Sample.disconnected Sample.online)
    as (Hd & _ & _ & _ & Hs & _).
  - right. reflexivity.
  - split; [apply Hd | apply Hs].
Defined.

(** ** Targets *)

(** C9.  An authenticated read of the targets answers 200 with exactly
    1800, 180, 115, 65 when the Settings sheet does not exist, when the
    range holds no values, and when the read fails: the failure is caught
    inside the handler. *)
Theorem C9_targets_default (c : Config) (r : Remote) :
  authorized c ->
  Settings (book r) = None \/
  read_range (book r) Settings_A2_D2 = inr None \/
  outage r (length (log r)) = true ->
  get_targets c r =
    (mkResponse 200 (BTargets 1800 180 115 65),
     mkRemote (book r) (log r ++ [values_get Settings_A2_D2]) (outage r)).
Proof.
  intros Ha H. unfold get_targets. rewrite (authorized_guard c Ha). run.
  destruct (outage r (length (log r))); [reflexivity|].
  destruct H as [H | [H | H]]; [| |discriminate].
  - unfold read_range, sheet_rows. simpl. rewrite H. reflexivity.
  - rewrite H. reflexivity.
Qed.

Lemma C9_targets_default_witness :
  get_targets Sample.connected Sample.online =
    (mkResponse 200 (BTargets 1800 180 115 65),
     mkRemote Sample.book0 [values_get Settings_A2_D2] (fun _ => false)).
Proof.
  apply (C9_targets_default Sample.connected Sample.online).
  - split; reflexivity.
  - left. reflexivity.
Defined.

(** ** Confirm *)

(** C3.  When the append of a confirmed entry fails, the handler still
    answers 200, with the submitted fields, [logged: false] and
    [rowIndex: null]; the ledger is unchanged. *)
Theorem C3_confirm_degrades (c : Config) (b : gmap string json) (r : Remote) :
  truthy (b !! "food") = true ->
  authorized c ->
  outage r (length (log r)) = true ->
  post_confirm c b r =
    (mkResponse 200
       (BConfirm (b !! "food") (b !! "calories") (b !! "protein") (b !! "carbs")
                 (b !! "fat") (b !! "date") (b !! "time") false None),
     mkRemote (book r)
       (log r ++ [values_append Sheet1_A_G
                    [[b !! "date"; b !! "time"; b !! "food"; b !! "calories";
                      b !! "protein"; b !! "carbs"; b !! "fat"]]])
       (outage r)).
Proof.
  intros Hf [Hs Ht] Ho. unfold post_confirm. rewrite Hf, Hs, Ht. run.
  rewrite Ho. reflexivity.
Qed.

Lemma C3_confirm_degrades_witness :
  (post_confirm Sample.connected Sample.meal Sample.offline).1 =
    mkResponse 200
      (BConfirm (Some (JStr "banana")) (Some (JNum 105)) (Some (JNum 1))
                (Some (JNum 27)) (Some (JNum 0)) (Some (JStr "3/10/2024"))
                (Some (JStr "03:00 PM")) false None).
Proof.
  rewrite (C3_confirm_degrades Sample.connected Sample.meal Sample.offline);
    [reflexivity | reflexivity | split; reflexivity | reflexivity].
Defined.

(** ** Analyze *)

Lemma analyze_no_remote_call (c : Config) (llm : Content -> Reply)
    (b : gmap string json) (r : Remote) :
  (Server.post_analyze c llm b r).2 = r.
Proof.
  unfold Server.post_analyze. run.
  repeat (case_match; simpl in *; simplify_eq; try reflexivity).
Qed.

Lemma analyze_ok_not_logged (c : Config) (llm : Content -> Reply)
    (b : gmap string json) (r : Remote) :
  status (Server.post_analyze c llm b r).1 = 200 ->
  logged_flag (body (Server.post_analyze c llm b r).1) = Some false.
Proof.
  unfold Server.post_analyze. run.
  repeat (case_match; simpl in *; simplify_eq; try reflexivity; try discriminate).
Qed.

Lemma analyze_answers (c : Config) (llm : Content -> Reply)
    (b : gmap string json) (r : Remote) (o : gmap string json) (ds ts : string) :
  truthy (b !! "food") || truthy (b !! "image") = true ->
  (forall v, b !! "image" = Some v -> truthy (Some v) = true -> exists s, v = JStr s) ->
  (forall content, llm content = ParsedObject o) ->
  (forall tz, toLocaleDateString (host c) tz = Some ds) ->
  (forall tz, toLocaleTimeString (host c) tz = Some ts) ->
  Server.post_analyze c llm b r =
    (mkResponse 200
       (BAnalysis (or_else (o !! "food") (b !! "food"))
                  (o !! "calories") (o !! "protein") (o !! "carbs") (o !! "fat")
                  (if truthy (b !! "date") then b !! "date" else Some (JStr ds))
                  ts false),
     r).
Proof.
  intros Hreq Himg Hllm Hd Ht. unfold Server.post_analyze.
  destruct (truthy (b !! "food")) eqn:Hf, (truthy (b !! "image")) eqn:Hi;
    try discriminate; simpl.
  all: run; try (destruct (b !! "image") as [v|] eqn:Hv; [|discriminate];
                 destruct (Himg v eq_refl Hi) as [s ->]; simpl).
  all: rewrite Hllm, Ht; destruct (truthy (b !! "date")); simpl;
    rewrite ?Hd; reflexivity.
Qed.

Lemma legacy_analyze_appends (c : Config) (llm : Content -> Reply)
    (b : gmap string json) (r : Remote) (o : gmap string json) :
  truthy (b !! "food") = true ->
  llm (TextPrompt (b !! "food")) = ParsedObject o ->
  authorized c ->
  status (Legacy.post_analyze c llm b r).1 = 200 /\
  logged_flag (body (Legacy.post_analyze c llm b r).1)
    = Some (negb (outage r (length (log r)))) /\
  log (Legacy.post_analyze c llm b r).2
    = (log r ++ [values_append Sheet1_A_G [legacy_row c b o]])%list /\
  (outage r (length (log r)) = false ->
   Sheet1 (book (Legacy.post_analyze c llm b r).2)
     = (trim_end blank_row (Sheet1 (book r))
        ++ [write_cells 0 (legacy_row c b o) []])%list).
Proof.
  intros Hf Hllm [Hs Ht]. unfold Legacy.post_analyze. rewrite Hf, Hs, Ht. run.
  rewrite Hllm. simpl.
  destruct (outage r (length (log r))); simpl;
    rewrite lookup_insert_eq; repeat split; try reflexivity; discriminate.
Qed.

Lemma analyze_fails (c : Config) (llm : Content -> Reply)
    (b : gmap string json) (r : Remote) (m : string) :
  truthy (b !! "food") || truthy (b !! "image") = true ->
  (forall v, b !! "image" = Some v -> truthy (Some v) = true -> exists s, v = JStr s) ->
  (forall content, llm content = Rejected m \/ llm content = Malformed m) ->
  Server.post_analyze c llm b r = (mkResponse 500 (BError m), r).
Proof.
  intros Hreq Himg Hllm. unfold Server.post_analyze.
  destruct (truthy (b !! "food")) eqn:Hf, (truthy (b !! "image")) eqn:Hi;
    try discriminate; simpl.
  all: run; try (destruct (b !! "image") as [v|] eqn:Hv; [|discriminate];
                 destruct (Himg v eq_refl Hi) as [s ->]; simpl).
  all: first [ by destruct (Hllm (TextPrompt (b !! "food"))) as [-> | ->]
             | by destruct (Hllm (image_content s (b !! "food"))) as [-> | ->] ].
Qed.

(** C1, as amended.  In the server that has the /confirm route, POST
    /analyze makes no spreadsheet call and leaves the remote end as it
    was, whatever the request and the estimator's reply, and an answer
    with status 200 carries [logged: false].  For a request with food or
    an image, the image a string when given: the answer is 200 when the
    estimator's reply parses to an object and the host formats the date
    and time, and 500 with the error's message when the estimator's call
    rejects or its reply is not JSON.  The earlier server's POST
    /analyze, given food, a sheet id, an access token and a reply that
    parses to an object, sends one append of the row itself, and reports
    [logged: true] exactly when that call went through. *)
Theorem C1_analyze_logging :
  (forall c llm b r, (Server.post_analyze c llm b r).2 = r) /\
  (forall c llm b r,
     status (Server.post_analyze c llm b r).1 = 200 ->
     logged_flag (body (Server.post_analyze c llm b r).1) = Some false) /\
  (forall c llm b r o ds ts,
     truthy (b !! "food") || truthy (b !! "image") = true ->
     (forall v, b !! "image" = Some v -> truthy (Some v) = true ->
                exists s, v = JStr s) ->
     (forall content, llm content = ParsedObject o) ->
     (forall tz, toLocaleDateString (host c) tz = Some ds) ->
     (forall tz, toLocaleTimeString (host c) tz = Some ts) ->
     status (Server.post_analyze c llm b r).1 = 200) /\
  (forall c llm b r m,
     truthy (b !! "food") || truthy (b !! "image") = true ->
     (forall v, b !! "image" = Some v -> truthy (Some v) = true ->
                exists s, v = JStr s) ->
     (forall content, llm content = Rejected m \/ llm content = Malformed m) ->
     Server.post_analyze c llm b r = (mkResponse 500 (BError m), r)) /\
  (forall c llm b r o,
     truthy (b !! "food") = true ->
     llm (TextPrompt (b !! "food")) = ParsedObject o ->
     authorized c ->
     logged_flag (body (Legacy.post_analyze c llm b r).1)
       = Some (negb (outage r (length (log r)))) /\
     log (Legacy.post_analyze c llm b r).2
       = (log r ++ [values_append Sheet1_A_G [legacy_row c b o]])%list).
Proof.
  split; [exact analyze_no_remote_call|].
  split; [exact analyze_ok_not_logged|].
  split; [|split].
  - intros c llm b r o ds ts H1 H2 H3 H4 H5.
    by rewrite (analyze_answers c llm b r o ds ts).
  - exact analyze_fails.
  - intros c llm b r o H1 H2 H3.
    destruct (legacy_analyze_appends c llm b r o H1 H2 H3) as (_ & Hl & Hlog & _).
    by split.
Qed.

Lemma C1_analyze_logging_witness :
  status (Server.post_analyze Sample.connected Sample.llm Sample.meal Sample.online).1
    = 200 /\
  logged_flag
    (body (Server.post_analyze Sample.connected Sample.llm Sample.meal Sample.online).1)
    = Some false /\
  Server.post_analyze Sample.connected (fun _ => Rejected "overloaded") Sample.meal
    Sample.online
    = (mkResponse 500 (BError "overloaded"), Sample.online) /\
  logged_flag
    (body (Legacy.post_analyze Sample.connected Sample.llm Sample.meal Sample.online).1)
    = Some true.
Proof.
  destruct C1_analyze_logging as (_ & Hnot & Hok & Hfail & Hold).
  assert (status (Server.post_analyze Sample.connected Sample.llm Sample.meal
                    Sample.online).1 = 200) as H200.
  { apply (Hok _ _ _ _ Sample.estimated "3/10/2024" "03:00 PM").
    - reflexivity.
    - intros v Hv. vm_compute in Hv. discriminate.
    - intros content. reflexivity.
    - intros tz. reflexivity.
    - intros tz. reflexivity. }
  split; [exact H200|]. split; [exact (Hnot _ _ _ _ H200)|].
  split.
  { apply Hfail.
    - reflexivity.
    - intros v Hv. vm_compute in Hv. discriminate.
    - intros content. left. reflexivity. }
  destruct (Hold Sample.connected Sample.llm Sample.meal Sample.online
              Sample.estimated eq_refl eq_refl (conj eq_refl eq_refl)) as [H _].
  exact H.
Defined.

(** C1, as stated, fails on the earlier server: with a sheet id and an
    access token held, POST /analyze with a food description appends a
    row to the ledger and answers [logged: true]. *)
Lemma C1_legacy_analyze_counterexample :
  truthy (Sample.meal !! "food") = true /\
  logged_flag
    (body (Legacy.post_analyze Sample.connected Sample.llm Sample.meal Sample.online).1)
    = Some true /\
  log (Legacy.post_analyze Sample.connected Sample.llm Sample.meal Sample.online).2
    = [values_append Sheet1_A_G
         [[Some (JStr "3/10/2024"); Some (JStr "03:00 PM"); Some (JStr "banana");
           Some (JNum 105); Some (JNum 1); Some (JNum 27); Some (JNum 0)]]] /\
  Sheet1 (book (Legacy.post_analyze Sample.connected Sample.llm Sample.meal
                  Sample.online).2)
    = (Sample.rows0
       ++ [["3/10/2024"; "03:00 PM"; "banana"; "105"; "1"; "27"; "0"]])%list.
Proof. repeat split; vm_compute; reflexivity. Qed.

(** ** Summary *)

Section SummaryLoop.

#[local] Arguments num_add : simpl never.
#[local] Arguments number_or : simpl never.
#[local] Arguments parseInt_number : simpl never.

Lemma cell_coerced (j : nat) (row : Row) :
  number_or (parseInt_number (row !! j)) zero = coerced j row.
Proof.
  unfold number_or, coerced, falsy.
  by destruct (parseInt_number (row !! j)).
Qed.

Lemma key_of_date_string (row : Row) : key_of (row !! 0%nat) = date_string row.
Proof. unfold key_of, date_string. by destruct (row !! 0%nat). Qed.

Lemma summary_step_matched (h : Host) (start now : Z) (index : nat) (row : Row)
    (a : Acc) :
  negb (is_header_row index row) && in_window h start now row = true ->
  summary_step h start now index row a =
    mkAcc (num_add (a_calories a) (coerced 3 row))
          (num_add (a_protein a) (coerced 4 row))
          (num_add (a_carbs a) (coerced 5 row))
          (num_add (a_fat a) (coerced 6 row))
          (a_count a + 1)
          (<[date_string row :=
               add_macros (default (mkMacros zero zero zero zero)
                             (dailyTotals a !! date_string row))
                          (row_macros row)]> (dailyTotals a)).
Proof.
  unfold is_header_row, in_window, summary_step. intros H.
  apply andb_true_iff in H as [Hh Hw]. apply negb_true_iff in Hh. rewrite Hh.
  destruct (Date_parse h (row !! 0%nat)) as [t|]; [|discriminate].
  rewrite Hw. unfold row_macros. cbn [m_calories m_protein m_carbs m_fat].
  by rewrite !cell_coerced, !key_of_date_string.
Qed.

Lemma summary_step_skipped (h : Host) (start now : Z) (index : nat) (row : Row)
    (a : Acc) :
  negb (is_header_row index row) && in_window h start now row = false ->
  summary_step h start now index row a = a.
Proof.
  unfold is_header_row, in_window, summary_step. intros H.
  destruct ((index =? 0)%nat && is_date_header (row !! 0%nat)); [reflexivity|].
  simpl in H. destruct (Date_parse h (row !! 0%nat)) as [t|]; [|reflexivity].
  by rewrite H.
Qed.

(** What the loop has accumulated, in terms of the matched rows. *)
Lemma forEach_summary (h : Host) (start now : Z) (rows : list Row) :
  forall (index : nat) (a : Acc),
    let a' := forEach (summary_step h start now) index rows a in
    let ms := matched_from h start now index rows in
    a_calories a' = total_from 3 ms (a_calories a) /\
    a_protein a' = total_from 4 ms (a_protein a) /\
    a_carbs a' = total_from 5 ms (a_carbs a) /\
    a_fat a' = total_from 6 ms (a_fat a) /\
    a_count a' = a_count a + Z.of_nat (length ms) /\
    dom (dailyTotals a') = dom (dailyTotals a) ∪ distinct_dates ms.
Proof.
  induction rows as [|row rest IH]; intros index a; simpl.
  - unfold distinct_dates. simpl. repeat split; try lia. set_solver.
  - destruct (negb (is_header_row index row) && in_window h start now row) eqn:Hm.
    + rewrite (summary_step_matched _ _ _ _ _ _ Hm).
      destruct (IH (S index)
                  (mkAcc (num_add (a_calories a) (coerced 3 row))
                     (num_add (a_protein a) (coerced 4 row))
                     (num_add (a_carbs a) (coerced 5 row))
                     (num_add (a_fat a) (coerced 6 row))
                     (a_count a + 1)
                     (<[date_string row :=
                          add_macros (default (mkMacros zero zero zero zero)
                                        (dailyTotals a !! date_string row))
                                     (row_macros row)]> (dailyTotals a))))
        as (H1 & H2 & H3 & H4 & H5 & H6).
      cbn [a_calories a_protein a_carbs a_fat a_count dailyTotals] in *.
      rewrite H1, H2, H3, H4, H5, H6.
      change ([row] ++ matched_from h start now (S index) rest)%list
        with (row :: matched_from h start now (S index) rest).
      repeat split; try (cbn [length]; lia).
      rewrite dom_insert_L. unfold distinct_dates. simpl. set_solver.
    + rewrite (summary_step_skipped _ _ _ _ _ _ Hm).
      destruct (IH (S index) a) as (H1 & H2 & H3 & H4 & H5 & H6).
      simpl. by repeat split.
Qed.

End SummaryLoop.

Lemma distinct_dates_size (ms : list Row) :
  (size (distinct_dates ms) <= length ms)%nat /\
  (ms <> [] -> (1 <= size (distinct_dates ms))%nat).
Proof.
  unfold distinct_dates. split.
  - induction ms as [|row ms IH].
    + change (size (∅ : gset string) <= 0)%nat. by rewrite size_empty.
    + simpl. rewrite size_union_alt, size_singleton.
      pose proof (subseteq_size
                    (list_to_set (map date_string ms) ∖ {[date_string row]})
                    (list_to_set (map date_string ms) : gset string)
                    ltac:(set_solver)).
      lia.
  - intros Hne. destruct ms as [|row ms']; [done|].
    assert (date_string row ∈ (list_to_set (map date_string (row :: ms')) : gset string))
      as Hin by (simpl; set_solver).
    assert (size (list_to_set (map date_string (row :: ms')) : gset string) <> 0%nat)
      as Hsz.
    { intros Hz. apply size_empty_inv in Hz. set_solver. }
    lia.
Qed.

Lemma summarize_spec (h : Host) (p : option string) (w : Wall) (rows : list Row) :
  let s := summarize h p w rows in
  let ms := matched_rows h (start_of p w) (getTime w) rows in
  totalCalories s = total 3 ms /\ totalProtein s = total 4 ms /\
  totalCarbs s = total 5 ms /\ totalFat s = total 6 ms /\
  entryCount s = Z.of_nat (length ms) /\
  daysCount s = days_count ms.
Proof.
  unfold summarize, matched_rows, total.
  cbn [totalCalories totalProtein totalCarbs totalFat entryCount daysCount].
  destruct (forEach_summary h (start_of p w) (getTime w) rows 0 acc0)
    as (H1 & H2 & H3 & H4 & H5 & H6).
  cbn [a_calories a_protein a_carbs a_fat a_count dailyTotals acc0] in *.
  rewrite H1, H2, H3, H4, H5.
  repeat split.
  rewrite <- size_dom, H6, dom_empty_L, (left_id_L ∅ (∪)).
  unfold days_count.
  destruct (distinct_dates_size (matched_from h (start_of p w) (getTime w) 0 rows))
    as [_ Hne].
  destruct (decide (matched_from h (start_of p w) (getTime w) 0 rows = []))
    as [->|Hm]; [reflexivity|].
  specialize (Hne Hm).
  destruct (Z.eqb_spec (Z.of_nat (size (distinct_dates
              (matched_from h (start_of p w) (getTime w) 0 rows)))) 0); lia.
Qed.

Lemma daysCount_pos (h : Host) (p : option string) (w : Wall) (rows : list Row) :
  0 < daysCount (summarize h p w rows).
Proof.
  destruct (summarize_spec h p w rows) as (_ & _ & _ & _ & _ & ->).
  unfold days_count.
  destruct (distinct_dates_size (matched_rows h (start_of p w) (getTime w) rows))
    as [_ Hne].
  destruct (decide _) as [|Hm]; [lia|]. specialize (Hne Hm). lia.
Qed.


(** The handler answers with the summary of the ledger as read. *)
Lemma get_summary_answers (c : Config) (p tz : option string) (r : Remote) (w : Wall) :
  authorized c ->
  outage r (length (log r)) = false ->
  (forall z, wall_clock (host c) z = Some w) ->
  get_summary c p tz r =
    (mkResponse 200 (BSummary (summarize (host c) p w (ledger (book r)))),
     mkRemote (book r) (log r ++ [values_get Sheet1_A_G]) (outage r)).
Proof.
  intros Ha Ho Hw. unfold get_summary. rewrite (authorized_guard c Ha). run.
  rewrite Ho. unfold ledger.
  destruct (read_range (book r) Sheet1_A_G) as [e|[vs|]] eqn:Hr.
  - unfold read_range in Hr. simpl in Hr. by repeat case_match.
  - simpl. by rewrite Hw.
  - simpl. by rewrite Hw.
Qed.

(** ** Entries *)

Lemma list_entries_In (date : option string) (rows : list Row) (index : nat)
    (row : Row) :
  rows !! index = Some row ->
  entry_filter (has_header rows) date (row, index) = true ->
  In (entry_of (has_header rows) (row, index)) (list_entries date rows).
Proof.
  intros Hl Hf. unfold list_entries. apply in_map, filter_In. split; [|exact Hf].
  apply list_elem_of_In, elem_of_lookup_imap. eauto.
Qed.

Lemma cell_eqb_refl (a : option string) : cell_eqb a a = true.
Proof. destruct a as [x|]; [apply String.eqb_refl | reflexivity]. Qed.

Lemma entry_filter_dated (rows : list Row) (index : nat) (row : Row) :
  rows !! index = Some row ->
  is_header_row index row = false ->
  entry_filter (has_header rows) (row !! 0%nat) (row, index) = true.
Proof.
  intros Hl Hh. unfold entry_filter, is_header_row in *.
  destruct index as [|index]; simpl in *; [|apply cell_eqb_refl].
  destruct rows as [|first rest]; [done|]. simpl in Hl. injection Hl as ->.
  simpl. rewrite Hh. apply cell_eqb_refl.
Qed.

Lemma parseInt_or_NaN (d : Z) (x : option string) :
  parseInt x = None -> parseInt_or d x = d.
Proof. intros H. unfold parseInt_or. by rewrite H. Qed.

Lemma coerced_NaN (j : nat) (row : Row) :
  parseInt (row !! j) = None -> coerced j row = zero.
Proof. intros H. unfold coerced, parseInt_number. by rewrite H. Qed.

(** C10.  A macro cell that is missing or holds no integer counts as 0
    and never removes its row.  In the summary loop a matched row adds 1
    to the entry count and its date string to the day keys whatever its
    macro cells hold, and adds 0 to the total of such a cell; the entry
    count and the day count of a summary are those of the matched rows.
    In a listing every row of the requested date, the header apart, is
    returned, with 0 for such a cell. *)
Theorem C10_macro_cells_coerced :
  (forall h start now index row a,
     negb (is_header_row index row) && in_window h start now row = true ->
     let a' := summary_step h start now index row a in
     a_count a' = a_count a + 1 /\
     dom (dailyTotals a') = {[ date_string row ]} ∪ dom (dailyTotals a) /\
     (parseInt (row !! 3%nat) = None -> a_calories a' = num_add (a_calories a) zero) /\
     (parseInt (row !! 4%nat) = None -> a_protein a' = num_add (a_protein a) zero) /\
     (parseInt (row !! 5%nat) = None -> a_carbs a' = num_add (a_carbs a) zero) /\
     (parseInt (row !! 6%nat) = None -> a_fat a' = num_add (a_fat a) zero)) /\
  (forall h p w rows,
     let s := summarize h p w rows in
     let ms := matched_rows h (start_of p w) (getTime w) rows in
     entryCount s = Z.of_nat (length ms) /\
     daysCount s = (if decide (ms = []) then 1
                    else Z.of_nat (size (distinct_dates ms)))) /\
  (forall rows index row,
     rows !! index = Some row ->
     is_header_row index row = false ->
     exists e, In e (list_entries (row !! 0%nat) rows) /\
       rowIndex e = (if has_header rows then Z.of_nat index - 1 else Z.of_nat index) /\
       (parseInt (row !! 3%nat) = None -> e_calories e = 0) /\
       (parseInt (row !! 4%nat) = None -> e_protein e = 0) /\
       (parseInt (row !! 5%nat) = None -> e_carbs e = 0) /\
       (parseInt (row !! 6%nat) = None -> e_fat e = 0)).
Proof.
  split; [|split].
  - intros h start now index row a Hm a'. subst a'.
    rewrite (summary_step_matched _ _ _ _ _ _ Hm).
    cbn [a_calories a_protein a_carbs a_fat a_count dailyTotals].
    rewrite dom_insert_L.
    repeat split; try (intros H; by rewrite (coerced_NaN _ _ H)).
  - intros h p w rows s ms.
    destruct (summarize_spec h p w rows) as (_ & _ & _ & _ & H5 & H6).
    by split.
  - intros rows index row Hl Hh.
    exists (entry_of (has_header rows) (row, index)).
    split; [apply list_entries_In; [exact Hl | by apply entry_filter_dated]|].
    cbn [entry_of rowIndex e_calories e_protein e_carbs e_fat].
    repeat split; apply parseInt_or_NaN.
Qed.

Lemma C10_macro_cells_coerced_witness :
  a_count (summary_step Sample.host0 0 (getTime (mkWall 2024 2 10 15 0 0)) 3
             ["3/10/2024"; "12:15 PM"; "egg salad"; "n/a"; "13"; ""; "22"] acc0) = 1 /\
  a_calories (summary_step Sample.host0 0 (getTime (mkWall 2024 2 10 15 0 0)) 3
                ["3/10/2024"; "12:15 PM"; "egg salad"; "n/a"; "13"; ""; "22"] acc0)
    = zero /\
  exists e, In e (list_entries (Some "3/10/2024") Sample.rows0) /\
    rowIndex e = 2 /\ e_calories e = 0 /\ e_carbs e = 0.
Proof.
  destruct C10_macro_cells_coerced as (Hs & _ & He).
  destruct (Hs Sample.host0 0 (getTime (mkWall 2024 2 10 15 0 0)) 3%nat
               ["3/10/2024"; "12:15 PM"; "egg salad"; "n/a"; "13"; ""; "22"] acc0
               eq_refl) as (Hc & _ & Hcal & _).
  split; [exact Hc|]. split; [exact (Hcal eq_refl)|].
  destruct (He Sample.rows0 3%nat
               ["3/10/2024"; "12:15 PM"; "egg salad"; "n/a"; "13"; ""; "22"]
               eq_refl eq_refl) as (e & Hin & Hi & Hcal' & _ & Hcarbs & _).
  exists e. split; [exact Hin|]. split; [exact Hi|].
  split; [exact (Hcal' eq_refl) | exact (Hcarbs eq_refl)].
Defined.

(** ** The summary window *)

Lemma new_Date_midnight (y m d : Z) :
  100 <= y -> new_Date y m d = midnight (mkWall y m d 0 0 0).
Proof.
  intros Hy. unfold new_Date, midnight. simpl.
  destruct (Z.leb_spec y 99); [lia|]. by rewrite andb_false_r.
Qed.

Lemma MakeDay_shift (y m d k : Z) : MakeDay y m (d - k) = MakeDay y m d - k.
Proof. unfold MakeDay. lia. Qed.

Lemma start_daily (w : Wall) :
  100 <= getFullYear w -> start_of (Some "daily") w = midnight w.
Proof. intros Hy. unfold start_of. simpl. by rewrite new_Date_midnight. Qed.

Lemma start_weekly (w : Wall) :
  100 <= getFullYear w ->
  start_of (Some "weekly") w = midnight w - 7 * msPerDay.
Proof.
  intros Hy. unfold start_of. simpl. rewrite new_Date_midnight by done.
  unfold midnight, MakeDate. simpl. rewrite MakeDay_shift. lia.
Qed.

Lemma start_unrecognized (p : option string) (w : Wall) :
  100 <= getFullYear w ->
  p <> Some "weekly" -> p <> Some "monthly" ->
  start_of p w = midnight w.
Proof.
  intros Hy Hw Hm. unfold start_of, period_is.
  destruct p as [s|]; [|by rewrite new_Date_midnight].
  destruct (String.eqb_spec s "daily"); [by rewrite new_Date_midnight|].
  destruct (String.eqb_spec s "weekly"); [congruence|].
  destruct (String.eqb_spec s "monthly"); [congruence|].
  by rewrite new_Date_midnight.
Qed.

(** The monthly start is the day numbered [getDate] counted from the
    first of the previous month: the same day of that month when the
    month has such a day. *)
Lemma start_monthly (w : Wall) :
  100 <= getFullYear w -> 0 <= getMonth w <= 11 ->
  start_of (Some "monthly") w =
    midnight (mkWall (previous_month w).1 (previous_month w).2 (getDate w) 0 0 0).
Proof.
  intros Hy Hm. unfold start_of, previous_month. simpl.
  rewrite new_Date_midnight by done. unfold midnight. simpl.
  destruct (Z.eqb_spec (getMonth w) 0) as [H0|Hn0]; [|reflexivity].
  rewrite H0. unfold MakeDay. simpl fst. simpl snd.
  change ((0 - 1) `div` 12) with (-1). change ((0 - 1) `mod` 12) with 11.
  change (11 `div` 12) with 0. change (11 `mod` 12) with 11.
  replace (getFullYear w - 1 + 0) with (getFullYear w + -1) by lia.
  reflexivity.
Qed.

(** The summary counts exactly the rows of the window. *)
Lemma summary_counts_window (h : Host) (p : option string) (w : Wall)
    (rows : list Row) :
  entryCount (summarize h p w rows)
  = Z.of_nat (length (matched_rows h (start_of p w) (getTime w) rows)).
Proof. by destruct (summarize_spec h p w rows) as (_ & _ & _ & _ & H & _). Qed.

(** C6, at a month end.  At noon on 31 March 2024 the monthly window
    starts at midnight of 2 March 2024, a day of the same month: 31
    February overflows.  Of the rows of 29 February, 1 March and 2 March
    only the last is counted. *)
Theorem C6_monthly_window_month_end :
  start_of (Some "monthly") Sample.noon_march_31
    = midnight (mkWall 2024 2 2 0 0 0) /\
  matched_rows (Sample.clock 2024 2 31 12 0)
    (start_of (Some "monthly") Sample.noon_march_31)
    (getTime Sample.noon_march_31) Sample.rows_march
    = [["3/2/2024"; "12:15 PM"; "egg salad"; "320"; "13"; "4"; "22"]] /\
  entryCount (summarize (Sample.clock 2024 2 31 12 0) (Some "monthly")
                Sample.noon_march_31 Sample.rows_march) = 1 /\
  days_in_month 2024 1 = 29.
Proof. repeat split; vm_compute; reflexivity. Qed.

(** ** Updating an entry *)

Lemma nth_or_pad {A : Type} (d : A) (n : nat) (l : list A) (i : nat) :
  nth_or d (pad_to n d l) i = nth_or d l i.
Proof.
  unfold nth_or, pad_to.
  destruct (decide (i < length l)%nat) as [Hlt|Hge].
  - by rewrite lookup_app_l.
  - rewrite lookup_app_r by lia.
    rewrite (proj2 (lookup_ge_None l i)) by lia. simpl.
    destruct (replicate (n - length l) d !! (i - length l)%nat) as [x|] eqn:Hx;
      [|reflexivity].
    apply lookup_replicate in Hx as [-> _]. reflexivity.
Qed.

Lemma length_pad_to {A : Type} (d : A) (n : nat) (l : list A) :
  (n <= length (pad_to n d l))%nat.
Proof. unfold pad_to. rewrite length_app, length_replicate. lia. Qed.

Lemma nth_or_insert {A : Type} (d x : A) (l : list A) (i j : nat) :
  (i < length l)%nat ->
  nth_or d (<[i := x]> l) j = if decide (j = i) then x else nth_or d l j.
Proof.
  intros Hi. unfold nth_or. destruct (decide (j = i)) as [->|Hne].
  - by rewrite list_lookup_insert_eq.
  - by rewrite list_lookup_insert_ne.
Qed.

(** A cell after [write_cells]: the value entered for its column, if one
    was, and what it held otherwise. *)
Lemma nth_or_write_cells (vals : list (option json)) :
  forall (first : nat) (row : Row) (j : nat),
    nth_or "" (write_cells first vals row) j =
      match (if decide (first <= j)%nat then vals !! (j - first)%nat else None) with
      | Some v => default (nth_or "" row j) (entered v)
      | None => nth_or "" row j
      end.
Proof.
  induction vals as [|v vs IH]; intros first row j; simpl.
  - by destruct (decide (first <= j)%nat).
  - rewrite IH.
    assert (nth_or "" (match entered v with
                       | Some c => <[first := c]> (pad_to (S first) "" row)
                       | None => row
                       end) j
            = if decide (j = first) then default (nth_or "" row j) (entered v)
              else nth_or "" row j) as Hstep.
    { destruct (entered v) as [c|]; simpl.
      - rewrite nth_or_insert by (pose proof (length_pad_to "" (S first) row); lia).
        by rewrite nth_or_pad.
      - by destruct (decide (j = first)). }
    rewrite Hstep.
    destruct (decide (S first <= j)%nat) as [Hgt|Hle].
    + destruct (decide (first <= j)%nat); [|lia].
      destruct (decide (j = first)); [lia|].
      replace (j - first)%nat with (S (j - S first)) by lia. reflexivity.
    + destruct (decide (j = first)) as [->|Hne].
      * destruct (decide (first <= first)%nat); [|lia].
        by replace (first - first)%nat with 0%nat by lia.
      * destruct (decide (first <= j)%nat); [lia|]. reflexivity.
Qed.

Lemma cell_write_row (first : nat) (vals : list (option json)) (i : nat)
    (rows : list Row) (i' j : nat) :
  cell (write_row first vals i rows) i' j =
    if decide (i' = i) then nth_or "" (write_cells first vals (nth_or [] rows i)) j
    else cell rows i' j.
Proof.
  unfold cell, write_row.
  rewrite nth_or_insert by (pose proof (length_pad_to [] (S i) rows); lia).
  fold (nth_or [] (pad_to (S i) [] rows) i). rewrite !nth_or_pad.
  by destruct (decide (i' = i)).
Qed.

(** What a successful update of [Sheet1!Dn:Gn] does to the book. *)
Lemma update_D_G (b : Book) (n : Z) (vals : list (option json)) (b' : Book) :
  update_range b (Sheet1_D_G (Some n)) [vals] = inr b' ->
  1 <= n /\ (length vals <= 4)%nat /\
  Settings b' = Settings b /\
  Sheet1 b' = write_row 3 vals (Z.to_nat (n - 1)) (Sheet1 b).
Proof.
  unfold update_range. simpl.
  destruct (Z.leb_spec 1 n); simpl; [|discriminate].
  destruct (Nat.leb_spec (length vals) 4); simpl; [|discriminate].
  intros [= <-]. by repeat split.
Qed.

(** The only thing [put_entry] does to the book is one update of
    [Sheet1!Dn:Gn] with [n] two more than the parsed index. *)
Lemma put_entry_book (c : Config) (p : string) (b : gmap string json) (r : Remote) :
  book (put_entry c p b r).2 = book r \/
  exists k,
    parseInt (Some p) = Some k /\
    update_range (book r) (Sheet1_D_G (Some (k + 2)))
      [[b !! "calories"; b !! "protein"; b !! "carbs"; b !! "fat"]]
    = inr (book (put_entry c p b r).2).
Proof.
  unfold put_entry.
  destruct (negb (has_sheet_id c) || negb (has_access_token c)); [by left|].
  run. destruct (outage r (length (log r))); [by left|].
  destruct (parseInt_str p) as [k|] eqn:Hp; simpl; [|by left].
  destruct (update_range (book r) (Sheet1_D_G (Some (k + 2)))
              [[b !! "calories"; b !! "protein"; b !! "carbs"; b !! "fat"]])
    as [e|b'] eqn:Hu; simpl; [by left|].
  right. exists k. by split.
Qed.

(** C8.  An update of an entry changes no cell of the ledger outside
    columns D to G of the physical row two below the index, and nothing in
    the Settings sheet; when the request is authenticated and the call
    goes through, it is one write of the four macro values to D:G of that
    row, after which each of the four cells holds the value entered for it
    (a value left out of the request leaves its cell as it was). *)
Theorem C8_update_writes_D_to_G (c : Config) (p : string) (b : gmap string json)
    (r : Remote) :
  let vals := [b !! "calories"; b !! "protein"; b !! "carbs"; b !! "fat"] in
  let r' := (put_entry c p b r).2 in
  Settings (book r') = Settings (book r) /\
  (forall i j,
     cell (Sheet1 (book r')) i j <> cell (Sheet1 (book r)) i j ->
     exists k, parseInt (Some p) = Some k /\ Z.of_nat i + 1 = k + 2 /\
               (3 <= j <= 6)%nat) /\
  (authorized c -> outage r (length (log r)) = false ->
   forall k, parseInt (Some p) = Some k -> 1 <= k + 2 ->
     (put_entry c p b r).1 = mkResponse 200 BSuccess /\
     log r' = (log r ++ [values_update (Sheet1_D_G (Some (k + 2))) [vals]])%list /\
     forall j v, vals !! j = Some v ->
       cell (Sheet1 (book r')) (Z.to_nat (k + 2 - 1)) (3 + j)
       = default (cell (Sheet1 (book r)) (Z.to_nat (k + 2 - 1)) (3 + j)) (entered v)).
Proof.
  intros vals r'. subst r'. split; [|split].
  - destruct (put_entry_book c p b r) as [->|(k & _ & Hu)]; [reflexivity|].
    by destruct (update_D_G _ _ _ _ Hu) as (_ & _ & ? & _).
  - intros i j Hne.
    destruct (put_entry_book c p b r) as [Hsame|(k & Hp & Hu)].
    { exfalso. apply Hne. by rewrite Hsame. }
    destruct (update_D_G _ _ _ _ Hu) as (Hn & _ & _ & Hrows).
    exists k. split; [exact Hp|].
    rewrite Hrows, cell_write_row in Hne.
    destruct (decide (i = Z.to_nat (k + 2 - 1))) as [->|]; [|done].
    split; [lia|].
    rewrite nth_or_write_cells in Hne.
    destruct (decide (3 <= j)%nat) as [H3|]; [|done].
    split; [exact H3|].
    destruct (decide (j <= 6)%nat) as [|H6]; [done|].
    exfalso. apply Hne.
    rewrite (proj2 (lookup_ge_None _ (j - 3)%nat)); [reflexivity|simpl; lia].
  - intros Ha Ho k Hp Hk. unfold put_entry.
    rewrite (authorized_guard c Ha). run. rewrite Ho.
    simpl in Hp. rewrite Hp. simpl.
    unfold update_range. simpl.
    destruct (Z.leb_spec 1 (k + 2)); [|lia]. simpl.
    repeat split.
    intros j v Hv. rewrite cell_write_row.
    destruct (decide (Z.to_nat (k + 2 - 1) = Z.to_nat (k + 2 - 1))); [|done].
    rewrite nth_or_write_cells.
    change (3 + j)%nat with (S (S (S j))).
    destruct (decide (3 <= S (S (S j)))%nat); [|lia].
    replace (S (S (S j)) - 3)%nat with j by lia.
    subst vals. rewrite Hv. reflexivity.
Qed.

Lemma C8_update_writes_D_to_G_witness :
  (put_entry Sample.connected "0" Sample.macros Sample.online).1
    = mkResponse 200 BSuccess /\
  Sheet1 (book (put_entry Sample.connected "0" Sample.macros Sample.online).2) !! 1%nat
    = Some ["3/10/2024"; "08:00 AM"; "oatmeal"; "160"; "6"; "28"; "3"] /\
  cell (Sheet1 (book (put_entry Sample.connected "0" Sample.macros Sample.online).2))
       1 3 = "160".
Proof.
  destruct (C8_update_writes_D_to_G Sample.connected "0" Sample.macros Sample.online)
    as (_ & _ & H).
  destruct (H (conj eq_refl eq_refl) eq_refl 0 eq_refl ltac:(lia)) as (Hs & _ & Hc).
  split; [exact Hs|]. split; [reflexivity|].
  exact (Hc 0%nat (Some (JNum 160)) eq_refl).
Defined.

(** ** Listing and deleting entries *)

Section Listing.

Local Open Scope list_scope.
Local Arguments Z.of_nat : simpl never.
Local Arguments entry_of : simpl never.

Variable date : option string.

Lemma entries_of_data (data : list Row) :
  forall j : nat,
    map (entry_of true)
      (List.filter (entry_filter true date)
         (imap (fun i row => (row, S (j + i))) data))
    = data_entries date j data.
Proof.
  induction data as [|row rest IH]; intros j; [reflexivity|].
  rewrite imap_cons. simpl. rewrite Nat.add_0_r.
  rewrite (imap_ext _ (fun i row => (row, S (S j + i))))
    by (intros; simpl; do 2 f_equal; lia).
  rewrite <- (IH (S j)).
  destruct (cell_eqb (row !! 0%nat) date); reflexivity.
Qed.

Lemma list_entries_header (hd : Row) (data : list Row) :
  is_date_header (hd !! 0%nat) = true ->
  list_entries date (hd :: data) = data_entries date 0 data.
Proof.
  intros Hh. unfold list_entries. simpl. rewrite Hh. simpl.
  apply (entries_of_data data 0).
Qed.

Lemma without_app (k : Z) (a b : list Entry) :
  without k (a ++ b) = without k a ++ without k b.
Proof. unfold without. by rewrite List.filter_app, List.map_app. Qed.

Lemma without_entry_later (k : Z) (row : Row) (i : nat) :
  k < Z.of_nat i ->
  without k [entry_of true (row, S i)] = [entry_of true (row, i)].
Proof.
  intros Hk. unfold without, shift_down, entry_of. simpl.
  destruct (Z.eqb_spec (Z.of_nat (S i) - 1) k); [lia|]. simpl.
  destruct (Z.ltb_spec k (Z.of_nat (S i) - 1)); [|lia].
  do 2 f_equal. lia.
Qed.

Lemma without_entry_earlier (k : Z) (row : Row) (i : nat) :
  Z.of_nat i < k ->
  without k [entry_of true (row, S i)] = [entry_of true (row, S i)].
Proof.
  intros Hk. unfold without, shift_down, entry_of. simpl.
  destruct (Z.eqb_spec (Z.of_nat (S i) - 1) k); [lia|]. simpl.
  destruct (Z.ltb_spec k (Z.of_nat (S i) - 1)); [lia|]. reflexivity.
Qed.

Lemma without_entry_same (row : Row) (i : nat) :
  without (Z.of_nat i) [entry_of true (row, S i)] = [].
Proof.
  unfold without, entry_of. simpl.
  destruct (Z.eqb_spec (Z.of_nat (S i) - 1) (Z.of_nat i)); [reflexivity|lia].
Qed.

Lemma without_later (data : list Row) :
  forall (j : nat) (k : Z),
    k <= Z.of_nat j ->
    without k (data_entries date (S j) data) = data_entries date j data.
Proof.
  induction data as [|row rest IH]; intros j k Hk; [reflexivity|].
  simpl. rewrite without_app, IH by lia. f_equal.
  destruct (cell_eqb (row !! 0%nat) date); [|reflexivity].
  apply without_entry_later. lia.
Qed.

Lemma without_earlier (data : list Row) :
  forall (j : nat) (k : Z),
    Z.of_nat j + Z.of_nat (length data) <= k ->
    without k (data_entries date j data) = data_entries date j data.
Proof.
  induction data as [|row rest IH]; intros j k Hk; [reflexivity|].
  simpl in *. rewrite without_app, IH by lia. f_equal.
  destruct (cell_eqb (row !! 0%nat) date); [|reflexivity].
  apply without_entry_earlier. lia.
Qed.

(** Removing data row [k] from the range. *)
Lemma data_entries_remove (k : nat) :
  forall (data : list Row) (j : nat),
    data_entries date j (take k data ++ drop (S k) data)
    = without (Z.of_nat (j + k)) (data_entries date j data).
Proof.
  induction k as [|k IH]; intros [|row rest] j; try reflexivity.
  - simpl. rewrite without_app, without_later by lia.
    destruct (cell_eqb (row !! 0%nat) date); [|reflexivity].
    rewrite Nat.add_0_r. by rewrite without_entry_same.
  - change (take (S k) (row :: rest) ++ drop (S (S k)) (row :: rest))
      with (row :: (take k rest ++ drop (S k) rest)).
    simpl. rewrite IH, without_app.
    replace (Z.of_nat (S j + k)) with (Z.of_nat (j + S k)) by lia. f_equal.
    destruct (cell_eqb (row !! 0%nat) date); [|reflexivity].
    symmetry. apply without_entry_earlier. lia.
Qed.

End Listing.

(** Reads drop trailing empty rows; a listing by date never sees them. *)

Lemma trim_end_split {A : Type} (blank : A -> bool) (l : list A) :
  exists t, l = (trim_end blank l ++ t)%list /\ Forall (fun x => blank x = true) t.
Proof.
  induction l as [|x l (t & Hl & Ht)]; [by exists []|].
  simpl. destruct (trim_end blank l) as [|y r'] eqn:Htrim.
  - destruct (blank x) eqn:Hx.
    + exists (x :: l). split; [reflexivity|].
      simpl in Hl. subst t. by constructor.
    + exists l. split; [reflexivity|]. simpl in Hl. by subst t.
  - exists t. split; [|exact Ht]. simpl in Hl |- *. by rewrite <- Hl.
Qed.

Lemma has_header_trim (l : list Row) :
  has_header (trim_end blank_row l) = has_header l.
Proof.
  destruct l as [|x l]; [reflexivity|]. simpl.
  destruct (trim_end blank_row l); [|reflexivity].
  destruct x; reflexivity.
Qed.

Lemma blank_rows_not_listed (hh : bool) (d : string) (t : list Row) :
  Forall (fun x => blank_row x = true) t ->
  forall off : nat,
    List.filter (entry_filter hh (Some d)) (imap (fun n row => (row, (off + n)%nat)) t)
    = [].
Proof.
  induction 1 as [|x t Hx _ IH]; intros off; [reflexivity|].
  rewrite imap_cons. destruct x; [|discriminate]. simpl.
  rewrite (imap_ext _ (fun n row => (row, (S off + n)%nat)))
    by (intros; simpl; f_equal; lia).
  rewrite IH. by destruct ((off + 0 =? 0)%nat && hh).
Qed.

Lemma list_entries_trim (d : string) (l : list Row) :
  list_entries (Some d) (trim_end blank_row l) = list_entries (Some d) l.
Proof.
  unfold list_entries. rewrite has_header_trim. generalize (has_header l) as hh.
  destruct (trim_end_split blank_row l) as (t & Hl & Ht).
  intros hh. remember (trim_end blank_row l) as kept eqn:Hkept. clear Hkept.
  subst l. rewrite imap_app, List.filter_app.
  rewrite (blank_rows_not_listed _ _ _ Ht). by rewrite app_nil_r.
Qed.

Lemma ledger_rows (b : Book) :
  ledger b = trim_end blank_row (map (columns 0 6) (Sheet1 b)).
Proof.
  unfold ledger, read_range. simpl.
  by destruct (trim_end blank_row (map (columns 0 6) (Sheet1 b))).
Qed.

Lemma get_entries_answers (c : Config) (date : option string) (r : Remote) :
  authorized c ->
  outage r (length (log r)) = false ->
  get_entries c date r =
    (mkResponse 200 (BEntries (list_entries date (ledger (book r))) true),
     mkRemote (book r) (log r ++ [values_get Sheet1_A_G]) (outage r)).
Proof.
  intros Ha Ho. unfold get_entries. rewrite (authorized_guard c Ha). run.
  rewrite Ho. unfold ledger.
  destruct (read_range (book r) Sheet1_A_G) as [e|[vs|]] eqn:Hr; try reflexivity.
  unfold read_range in Hr. simpl in Hr. by repeat case_match.
Qed.

Lemma delete_entry_answers (c : Config) (p : string) (k : Z) (r : Remote) :
  authorized c ->
  parseInt (Some p) = Some k -> 0 <= k ->
  outage r (length (log r)) = false ->
  delete_entry c p r =
    (mkResponse 200 BSuccess,
     mkRemote
       (mkBook (take (S (Z.to_nat k)) (Sheet1 (book r))
                ++ drop (S (S (Z.to_nat k))) (Sheet1 (book r)))
               (Settings (book r)))
       (log r ++ [deleteDimension 0 (Some (k + 2 - 1)) (Some (k + 2))])
       (outage r)).
Proof.
  intros Ha Hp Hk Ho. unfold delete_entry. rewrite (authorized_guard c Ha). run.
  rewrite Ho, Hp. simpl. unfold delete_rows.
  destruct (Z.leb_spec 0 (k + 2 - 1)); [|lia].
  destruct (Z.ltb_spec (k + 2 - 1) (k + 2)); [|lia]. simpl.
  replace (Z.to_nat (k + 2 - 1)) with (S (Z.to_nat k)) by lia.
  replace (Z.to_nat (k + 2)) with (S (S (Z.to_nat k))) by lia.
  reflexivity.
Qed.

(** The listing of a ledger with a header row once data row [k] is gone. *)
Lemma list_entries_remove (d : string) (rows : list Row) (k : nat) :
  has_header rows = true ->
  list_entries (Some d) (take (S k) rows ++ drop (S (S k)) rows)
  = without (Z.of_nat k) (list_entries (Some d) rows).
Proof.
  destruct rows as [|hd data]; [discriminate|]. simpl. intros Hh.
  change (hd :: take k data ++ drop (S k) data)%list
    with (hd :: (take k data ++ drop (S k) data))%list.
  rewrite !list_entries_header by done.
  apply (data_entries_remove (Some d) k data 0).
Qed.

(** C7.  With a header row in the ledger, deleting the entry at index
    [k] and listing the entries of a date again gives the earlier listing
    without the entry of index [k], the entries of larger index moved down
    by one and those of smaller index as they were. *)
Theorem C7_delete_shifts_later_entries (c : Config) (p d : string) (k : Z)
    (r : Remote) (before : list Entry) :
  authorized c ->
  (forall n, outage r n = false) ->
  has_header (ledger (book r)) = true ->
  parseInt (Some p) = Some k -> 0 <= k ->
  (get_entries c (Some d) r).1 = mkResponse 200 (BEntries before true) ->
  (delete_entry c p r).1 = mkResponse 200 BSuccess /\
  (get_entries c (Some d) (delete_entry c p r).2).1
    = mkResponse 200 (BEntries (without k before) true).
Proof.
  intros Ha Ho Hh Hp Hk Hbefore.
  rewrite (get_entries_answers c (Some d) r Ha (Ho _)) in Hbefore.
  simpl in Hbefore. injection Hbefore as <-.
  rewrite (delete_entry_answers c p k r Ha Hp Hk (Ho _)). simpl.
  split; [reflexivity|].
  rewrite get_entries_answers by (try exact Ha; apply Ho). simpl.
  do 2 f_equal.
  rewrite !ledger_rows in *. simpl.
  rewrite has_header_trim in Hh. rewrite !list_entries_trim.
  rewrite List.map_app, <- firstn_map, <- skipn_map.
  rewrite (list_entries_remove d _ (Z.to_nat k) Hh).
  f_equal. lia.
Qed.

Lemma C7_delete_shifts_later_entries_witness :
  (get_entries Sample.connected (Some "3/10/2024")
     (delete_entry Sample.connected "0" Sample.online).2).1
  = mkResponse 200
      (BEntries
         [ mkEntry 1 (Some "3/10/2024") (Some "12:15 PM") (Some "egg salad")
                   0 13 0 22 true;
           mkEntry 2 (Some "3/10/2024") (Some "06:40 PM") (Some "apple")
                   95 0 0 0 true ]
         true).
Proof.
  refine (proj2 (C7_delete_shifts_later_entries Sample.connected "0" "3/10/2024" 0
                   Sample.online Sample.listed _ _ _ _ _ _)).
  - split; reflexivity.
  - intros n. reflexivity.
  - reflexivity.
  - reflexivity.
  - lia.
  - reflexivity.
Defined.

(** ** The handlers on the sample ledger *)

Example summary_weekly_sample :
  (get_summary Sample.connected (Some "weekly") (Some "America/New_York")
     Sample.online).1
  = mkResponse 200
      (BSummary (mkSummary (Some "weekly")
                   (Number_of 765) (Number_of 36) (Number_of 107) (Number_of 37) 4 2
                   (Number_of 383) (Number_of 18) (Number_of 54) (Number_of 19))).
Proof. vm_compute. reflexivity. Qed.

Example summary_daily_sample :
  (get_summary Sample.connected (Some "daily") None Sample.online).1
  = mkResponse 200
      (BSummary (mkSummary (Some "daily")
                   (Number_of 245) (Number_of 18) (Number_of 27) (Number_of 25) 3 1
                   (Number_of 245) (Number_of 18) (Number_of 27) (Number_of 25))).
Proof. vm_compute. reflexivity. Qed.

Example start_monthly_sample :
  start_of (Some "monthly") (mkWall 2024 2 10 15 0 0)
  = midnight (mkWall 2024 1 10 0 0 0).
Proof. reflexivity. Qed.

Example confirm_sample :
  (post_confirm Sample.connected Sample.meal Sample.online).1
  = mkResponse 200
      (BConfirm (Some (JStr "banana")) (Some (JNum 105)) (Some (JNum 1))
                (Some (JNum 27)) (Some (JNum 0)) (Some (JStr "3/10/2024"))
                (Some (JStr "03:00 PM")) true (Some 4)).
Proof. vm_compute. reflexivity. Qed.

Example parseInt_samples :
  parseInt (Some "  42px") = Some 42 /\ parseInt (Some "-7") = Some (-7) /\
  parseInt (Some "0x1F") = Some 31 /\ parseInt (Some "n/a") = None /\
  parseInt (Some "") = None /\ parseInt None = None /\
  parseInt_or 1800 (Some "0") = 1800.
Proof. repeat split; reflexivity. Qed.

(** A no-break space (C2 A0) before the digits is skipped like a space. *)
Example parseInt_no_break_space :
  parseInt (Some (String (ascii_of_nat 194) (String (ascii_of_nat 160) "12"))) = Some 12.
Proof. reflexivity. Qed.

(** Doubles: an integer above 2^53 is read as the nearest double, halves
    round upwards, and a sum is rounded at every step. *)
Example number_samples :
  parseInt_number (Some "9007199254740993") = Number_of 9007199254740992 /\
  Math_round (num_div (Number_of 765) (Number_of 2)) = Number_of 383 /\
  Math_round (num_div (Number_of (-765)) (Number_of 2)) = Number_of (-382) /\
  Math_round (num_div (Number_of 1) (Number_of 3)) = zero /\
  num_add (num_add (Number_of 9007199254740992) (Number_of 1)) (Number_of 1)
    = Number_of 9007199254740992 /\
  num_add (num_add (Number_of 1) (Number_of 1)) (Number_of 9007199254740992)
    = Number_of 9007199254740994.
Proof. repeat split; vm_compute; reflexivity. Qed.

(** * Further properties of the handlers *)

(** ** Authorization flow *)

Lemma string_app_assoc (a b c : string) : (a ++ b) ++ c = a ++ (b ++ c).
Proof.
  induction a as [|x a IH]; [reflexivity|].
  change (String x ((a ++ b) ++ c) = String x (a ++ (b ++ c))). by rewrite IH.
Qed.

(** X1.  The callback URL always ends with the callback path, and an
    environment variable set to the empty string counts as unset. *)
Theorem X1_callback_url (e : Auth.Env) :
  (exists origin, Auth.getCallbackUrl e = origin ++ "/auth/google/callback") /\
  Auth.getCallbackUrl (Auth.mkEnv (Some "") (Auth.VERCEL_URL e) (Auth.PORT e))
    = Auth.getCallbackUrl (Auth.mkEnv None (Auth.VERCEL_URL e) (Auth.PORT e)) /\
  Auth.getCallbackUrl (Auth.mkEnv (Auth.RAILWAY_PUBLIC_DOMAIN e) (Some "") (Auth.PORT e))
    = Auth.getCallbackUrl (Auth.mkEnv (Auth.RAILWAY_PUBLIC_DOMAIN e) None (Auth.PORT e)) /\
  Auth.getCallbackUrl
    (Auth.mkEnv (Auth.RAILWAY_PUBLIC_DOMAIN e) (Auth.VERCEL_URL e) (Some ""))
    = Auth.getCallbackUrl
        (Auth.mkEnv (Auth.RAILWAY_PUBLIC_DOMAIN e) (Auth.VERCEL_URL e) None).
Proof.
  split; [|repeat split; reflexivity].
  unfold Auth.getCallbackUrl.
  destruct (truthy_str (Auth.RAILWAY_PUBLIC_DOMAIN e)).
  { exists ("https://" ++ default "" (Auth.RAILWAY_PUBLIC_DOMAIN e)).
    by rewrite string_app_assoc. }
  destruct (truthy_str (Auth.VERCEL_URL e)).
  { exists ("https://" ++ default "" (Auth.VERCEL_URL e)).
    by rewrite string_app_assoc. }
  exists ("http://localhost:" ++ Auth.port e). by rewrite string_app_assoc.
Qed.

(** X2.  When the provider answers the code with tokens, the file system
    is writable, and the tokens carry a refresh token or a record is
    already on disk, the callback stores the tokens in memory and on
    disk and redirects to the success page; the file then holds the
    answer alone, and a process started afresh gets the same credentials
    back from [loadTokens]. *)
Theorem X2_callback_then_restart
    (exchange : option string -> string + gmap string json)
    (code : option string) (st : Auth.State) (tokens : gmap string json) :
  exchange code = inr tokens ->
  Auth.read_only st = false ->
  truthy (tokens !! "refresh_token") = true \/
    (exists existing, Auth.token_file st = Auth.Holds existing) ->
  (Auth.get_callback exchange code st).1 = Auth.Redirect "/?authenticated=true" /\
  Auth.credentials (Auth.get_callback exchange code st).2 = tokens /\
  Auth.token_file (Auth.get_callback exchange code st).2 = Auth.Holds tokens /\
  Auth.loadTokens
    (Auth.mkState ∅ (Auth.token_file (Auth.get_callback exchange code st).2) false)
  = (true, Auth.mkState tokens (Auth.Holds tokens) false).
Proof.
  intros Hx Hw Hl.
  unfold Auth.get_callback, Auth.getToken, Auth.on_tokens, Auth.readTokens,
    Auth.saveTokens.
  rewrite Hx, Hw.
  destruct (truthy (tokens !! "refresh_token")) eqn:Hrt.
  - simpl. by repeat split.
  - destruct Hl as [Hl | [existing Hf]]; [discriminate|].
    rewrite Hf. simpl. by repeat split.
Qed.

Lemma X2_callback_then_restart_witness :
  Auth.loadTokens
    (Auth.mkState ∅
       (Auth.token_file
          (Auth.get_callback (fun _ => inr Sample.stored) (Some "4/0Ab")
             (Auth.mkState ∅ Auth.Absent false)).2) false)
  = (true, Auth.mkState Sample.stored (Auth.Holds Sample.stored) false) /\
  Auth.token_file
    (Auth.get_callback (fun _ => inr Sample.refreshed) (Some "4/0Ab")
       (Auth.mkState ∅ (Auth.Holds Sample.granted) false)).2
  = Auth.Holds Sample.refreshed.
Proof.
  split.
  - apply (X2_callback_then_restart (fun _ => inr Sample.stored) (Some "4/0Ab")
             (Auth.mkState ∅ Auth.Absent false) Sample.stored eq_refl eq_refl
             (or_introl eq_refl)).
  - apply (X2_callback_then_restart (fun _ => inr Sample.refreshed) (Some "4/0Ab")
             (Auth.mkState ∅ (Auth.Holds Sample.granted) false) Sample.refreshed
             eq_refl eq_refl
             (or_intror (ex_intro _ Sample.granted eq_refl))).
Defined.

(** X3.  The callback sends the browser to the failure page and leaves
    the credentials and the token file as they were in three cases: the
    provider rejects the code; the file system is read-only, where the
    listener's write throws inside [getToken], before the credentials
    are set; the tokens carry no refresh token and the token file is
    missing or unreadable, where the listener's read throws. *)
Theorem X3_callback_failures
    (exchange : option string -> string + gmap string json)
    (code : option string) (st : Auth.State) :
  (forall err, exchange code = inl err ->
     Auth.get_callback exchange code st = (Auth.Redirect "/?error=auth_failed", st)) /\
  (forall tokens, exchange code = inr tokens -> Auth.read_only st = true ->
     Auth.get_callback exchange code st = (Auth.Redirect "/?error=auth_failed", st)) /\
  (forall tokens, exchange code = inr tokens ->
     truthy (tokens !! "refresh_token") = false ->
     Auth.token_file st = Auth.Absent \/ Auth.token_file st = Auth.Corrupt ->
     Auth.get_callback exchange code st = (Auth.Redirect "/?error=auth_failed", st)).
Proof.
  split; [|split].
  - intros err Hx. unfold Auth.get_callback, Auth.getToken. by rewrite Hx.
  - intros tokens Hx Hro.
    unfold Auth.get_callback, Auth.getToken, Auth.on_tokens, Auth.readTokens,
      Auth.saveTokens.
    rewrite Hx, Hro.
    destruct (truthy (tokens !! "refresh_token")); [reflexivity|].
    by destruct (Auth.token_file st).
  - intros tokens Hx Hrt Hf.
    unfold Auth.get_callback, Auth.getToken, Auth.on_tokens, Auth.readTokens.
    rewrite Hx, Hrt. by destruct Hf as [-> | ->].
Qed.

Lemma X3_callback_failures_witness :
  Auth.get_callback (fun _ => inl "invalid_grant") None
    (Auth.mkState ∅ Auth.Absent false)
    = (Auth.Redirect "/?error=auth_failed", Auth.mkState ∅ Auth.Absent false) /\
  Auth.get_callback (fun _ => inr Sample.stored) (Some "4/0Ab")
    (Auth.mkState ∅ Auth.Absent true)
    = (Auth.Redirect "/?error=auth_failed", Auth.mkState ∅ Auth.Absent true) /\
  Auth.get_callback (fun _ => inr Sample.refreshed) (Some "4/0Ab")
    (Auth.mkState ∅ Auth.Absent false)
    = (Auth.Redirect "/?error=auth_failed", Auth.mkState ∅ Auth.Absent false).
Proof.
  split; [|split].
  - apply (proj1 (X3_callback_failures (fun _ => inl "invalid_grant") None
                    (Auth.mkState ∅ Auth.Absent false)) "invalid_grant" eq_refl).
  - apply (proj1 (proj2 (X3_callback_failures (fun _ => inr Sample.stored)
                           (Some "4/0Ab") (Auth.mkState ∅ Auth.Absent true)))
             Sample.stored eq_refl eq_refl).
  - apply (proj2 (proj2 (X3_callback_failures (fun _ => inr Sample.refreshed)
                           (Some "4/0Ab") (Auth.mkState ∅ Auth.Absent false)))
             Sample.refreshed eq_refl eq_refl (or_introl eq_refl)).
Defined.

(** X4.  Disconnecting on a writable file system, or with no token file
    to remove, answers success, removes the file and empties the
    credentials: the status route then reports false, the guard of the
    ledger routes fails, and [loadTokens] finds nothing.  Disconnecting
    again changes nothing. *)
Theorem X4_disconnect (st : Auth.State) :
  Auth.read_only st = false \/ Auth.token_file st = Auth.Absent ->
  let st' := (Auth.post_disconnect st).2 in
  (Auth.post_disconnect st).1 = Auth.Json 200 Auth.BSuccess /\
  Auth.token_file st' = Auth.Absent /\ Auth.credentials st' = ∅ /\
  Auth.get_status st' = Auth.Json 200 (Auth.BAuthenticated false) /\
  (forall id h, has_access_token (Auth.config id h st') = false) /\
  Auth.loadTokens st' = (false, st') /\
  Auth.post_disconnect st' = (Auth.Json 200 Auth.BSuccess, st').
Proof.
  destruct st as [cr f ro]. simpl.
  intros [-> | ->]; unfold Auth.post_disconnect, Auth.unlinkSync, Auth.existsSync;
    simpl; [destruct f|]; simpl; by repeat split.
Qed.

Lemma X4_disconnect_witness :
  (Auth.post_disconnect
     (Auth.mkState Sample.stored (Auth.Holds Sample.stored) false)).1
  = Auth.Json 200 Auth.BSuccess /\
  Auth.token_file
    (Auth.post_disconnect
       (Auth.mkState Sample.stored (Auth.Holds Sample.stored) false)).2
  = Auth.Absent.
Proof.
  destruct (X4_disconnect
              (Auth.mkState Sample.stored (Auth.Holds Sample.stored) false)
              (or_introl eq_refl)) as (H1 & H2 & _).
  split; [exact H1 | exact H2].
Defined.

(** X5.  When the token file exists and cannot be removed, disconnecting
    answers 500 and clears nothing: the credentials stay in memory and
    the status route still reports them. *)
Theorem X5_disconnect_read_only (st : Auth.State) :
  Auth.read_only st = true -> Auth.token_file st <> Auth.Absent ->
  (exists msg, Auth.post_disconnect st = (Auth.Json 500 (Auth.BError msg), st)) /\
  Auth.get_status (Auth.post_disconnect st).2 = Auth.get_status st.
Proof.
  destruct st as [cr f ro]. simpl. intros -> Hf.
  unfold Auth.post_disconnect, Auth.existsSync, Auth.unlinkSync. simpl.
  destruct f; [done| |]; split; eauto.
Qed.

Lemma X5_disconnect_read_only_witness :
  Auth.get_status
    (Auth.post_disconnect
       (Auth.mkState Sample.stored (Auth.Holds Sample.stored) true)).2
  = Auth.Json 200 (Auth.BAuthenticated true).
Proof.
  rewrite (proj2 (X5_disconnect_read_only
                    (Auth.mkState Sample.stored (Auth.Holds Sample.stored) true)
                    eq_refl ltac:(discriminate))).
  reflexivity.
Defined.

(** ** Refreshes in series *)

Lemma refresh_step_keeps (tokens : gmap string json) (d : CredentialStore.Disk) :
  tokens !! "refresh_token" = None ->
  CredentialStore.stored_refresh_token
    (CredentialStore.disk_after (CredentialStore.on_tokens tokens d) d)
  = CredentialStore.stored_refresh_token d /\
  (is_Some (CredentialStore.disk_after (CredentialStore.on_tokens tokens d) d)
   <-> is_Some d).
Proof.
  intros Hno. unfold CredentialStore.on_tokens. rewrite Hno. simpl.
  destruct d as [existing|]; simpl.
  - rewrite spread_lookup_old by done. split; [done|]. split; eauto.
  - done.
Qed.

(** X6.  However many refreshes arrive without a [refresh_token], the
    stored [refresh_token] stays what it was, and no refresh creates the
    token file when there is none. *)
Theorem X6_refresh_token_invariant (events : list (gmap string json))
    (d : CredentialStore.Disk) :
  Forall (fun tokens : gmap string json => tokens !! "refresh_token" = None) events ->
  CredentialStore.stored_refresh_token (Auth.refresh_all events d)
    = CredentialStore.stored_refresh_token d /\
  (is_Some (Auth.refresh_all events d) <-> is_Some d).
Proof.
  intros H. revert d. induction H as [|tokens events Hno _ IH]; intros d; [done|].
  unfold Auth.refresh_all in *. simpl.
  destruct (refresh_step_keeps tokens d Hno) as [Hk Hs].
  destruct (IH (CredentialStore.disk_after (CredentialStore.on_tokens tokens d) d))
    as [IH1 IH2].
  rewrite IH1, IH2. by split.
Qed.

Lemma X6_refresh_token_invariant_witness :
  CredentialStore.stored_refresh_token
    (Auth.refresh_all [Sample.refreshed; Sample.refreshed] (Some Sample.stored))
  = Some (JStr "1//rt").
Proof.
  rewrite (proj1 (X6_refresh_token_invariant [Sample.refreshed; Sample.refreshed]
                    (Some Sample.stored)
                    ltac:(repeat constructor))).
  reflexivity.
Defined.

(** ** Analyze: rejections and image input *)

(** X7.  POST /analyze answers 400 when neither food nor an image is
    given; when the estimator's call rejects or its reply is not JSON it
    answers 500 with that error's message, and it answers 500 when the
    reply parses to [null].  No case touches the remote end. *)
Theorem X7_analyze_errors (c : Config) (llm : Content -> Reply)
    (b : gmap string json) (r : Remote) :
  (truthy (b !! "food") = false -> truthy (b !! "image") = false ->
   Server.post_analyze c llm b r =
     (mkResponse 400 (BError "Food description or image is required"), r)) /\
  (truthy (b !! "food") = true -> b !! "image" = None ->
   forall m,
     llm (TextPrompt (b !! "food")) = Rejected m \/
     llm (TextPrompt (b !! "food")) = Malformed m ->
     Server.post_analyze c llm b r = (mkResponse 500 (BError m), r)) /\
  (truthy (b !! "food") = true -> b !! "image" = None ->
   llm (TextPrompt (b !! "food")) = ParsedNull ->
   status (Server.post_analyze c llm b r).1 = 500 /\
   (Server.post_analyze c llm b r).2 = r).
Proof.
  split; [|split].
  - intros Hf Hi. unfold Server.post_analyze. by rewrite Hf, Hi.
  - intros Hf Hi m Hm. unfold Server.post_analyze. rewrite Hf, Hi. run.
    by destruct Hm as [-> | ->].
  - intros Hf Hi Hn. split; [|apply analyze_no_remote_call].
    unfold Server.post_analyze. rewrite Hf, Hi. run. rewrite Hn.
    repeat (case_match; simpl in *; simplify_eq; try reflexivity).
Qed.

Lemma X7_analyze_errors_witness :
  Server.post_analyze Sample.connected Sample.llm ∅ Sample.online
    = (mkResponse 400 (BError "Food description or image is required"),
       Sample.online) /\
  Server.post_analyze Sample.connected (fun _ => Malformed "Unexpected token")
    Sample.meal Sample.online
    = (mkResponse 500 (BError "Unexpected token"), Sample.online) /\
  status (Server.post_analyze Sample.connected (fun _ => ParsedNull)
            Sample.meal Sample.online).1 = 500.
Proof.
  split; [|split].
  - apply (proj1 (X7_analyze_errors Sample.connected Sample.llm ∅ Sample.online));
      reflexivity.
  - apply (proj1 (proj2 (X7_analyze_errors Sample.connected
                           (fun _ => Malformed "Unexpected token")
                           Sample.meal Sample.online)));
      [reflexivity | reflexivity | right; reflexivity].
  - apply (proj2 (proj2 (X7_analyze_errors Sample.connected (fun _ => ParsedNull)
                           Sample.meal Sample.online)));
      reflexivity.
Defined.

Lemma strip_prefix_app (p s : string) : strip_prefix p (p ++ s) = Some s.
Proof.
  induction p as [|a p IH]; [by destruct s|].
  change (String a p ++ s) with (String a (p ++ s)). simpl.
  by rewrite Ascii.eqb_refl.
Qed.

Lemma word_run_app (w : string) :
  forall acc rest,
    all_word w = true ->
    (forall c r, rest = String c r -> is_word c = false) ->
    word_run (w ++ rest) acc = (acc ++ w, rest).
Proof.
  induction w as [|c w IH]; intros acc rest Hw Hrest.
  - change ("" ++ rest) with rest.
    assert (acc ++ "" = acc) as ->.
    { clear. induction acc as [|x acc IH]; [reflexivity|].
      change (String x (acc ++ "") = String x acc). by rewrite IH. }
    destruct rest as [|c r]; [reflexivity|].
    simpl. by rewrite (Hrest c r eq_refl).
  - change (String c w ++ rest) with (String c (w ++ rest)).
    simpl in Hw. apply andb_true_iff in Hw as [Hc Hw].
    simpl. rewrite Hc, (IH _ _ Hw Hrest). f_equal.
    rewrite string_app_assoc. reflexivity.
Qed.

(** X8.  An image sent as a data URL [data:image/<type>;base64,<payload>]
    reaches the estimator with media type [image/<type>] and the payload
    alone, whatever the payload; an image that does not start with
    [data:image/] is passed on whole as [image/jpeg]. *)
Theorem X8_image_data_url (food : option json) :
  (forall w payload,
     w <> "" -> all_word w = true ->
     image_content ("data:image/" ++ w ++ ";base64," ++ payload) food
     = ImagePrompt ("image/" ++ w) payload food) /\
  (forall image,
     strip_prefix "data:image/" image = None ->
     image_content image food = ImagePrompt "image/jpeg" image food).
Proof.
  split.
  - intros w payload Hne Hw. unfold image_content, data_url_header.
    rewrite strip_prefix_app.
    rewrite (word_run_app w "" (";base64," ++ payload) Hw)
      by (intros c r [= <- _]; reflexivity).
    change ("" ++ w) with w.
    destruct w as [|c w']; [done|].
    by rewrite strip_prefix_app.
  - intros image Hno. unfold image_content, data_url_header. by rewrite Hno.
Qed.

Lemma X8_image_data_url_witness :
  image_content "data:image/png;base64,iVBORw0KGgo=" None
    = ImagePrompt "image/png" "iVBORw0KGgo=" None /\
  image_content "iVBORw0KGgo=" None = ImagePrompt "image/jpeg" "iVBORw0KGgo=" None.
Proof.
  split.
  - apply (proj1 (X8_image_data_url None) "png" "iVBORw0KGgo=");
      [discriminate | reflexivity].
  - apply (proj2 (X8_image_data_url None) "iVBORw0KGgo="). reflexivity.
Defined.

(** ** Numbers written to a cell and read back *)

Lemma digit_char (d : Z) :
  0 <= d < 10 ->
  digit_of 10 (ascii_of_nat (48 + Z.to_nat d)) = Some d /\
  all_digits (String (ascii_of_nat (48 + Z.to_nat d)) "") = true.
Proof.
  intros Hd.
  assert (d = 0 \/ d = 1 \/ d = 2 \/ d = 3 \/ d = 4 \/ d = 5 \/ d = 6 \/
          d = 7 \/ d = 8 \/ d = 9) as Hcase by lia.
  repeat (destruct Hcase as [->|Hcase]); try subst d; split; reflexivity.
Qed.

Lemma read_digits_cons (radix : Z) (c : ascii) (r : string) (d : Z)
    (st : option Z) :
  digit_of radix c = Some d ->
  read_digits radix (String c r) st
  = read_digits radix r (Some (default 0 st * radix + d)).
Proof. intros H. simpl. by rewrite H. Qed.

Lemma decimal_digits_S (fuel : nat) (a : Z) (acc : string) :
  decimal_digits (S fuel) a acc =
    if a <? 10 then String (ascii_of_nat (48 + Z.to_nat (a mod 10))) acc
    else decimal_digits fuel (a / 10)
           (String (ascii_of_nat (48 + Z.to_nat (a mod 10))) acc).
Proof. reflexivity. Qed.

Lemma decimal_digits_read (fuel : nat) :
  forall a acc,
    (1 <= fuel)%nat -> 0 <= a < 10 ^ Z.of_nat fuel ->
    exists k, 0 <= k /\
      forall st, read_digits 10 (decimal_digits fuel a acc) st
                 = read_digits 10 acc (Some (default 0 st * 10 ^ k + a)).
Proof.
  induction fuel as [|fuel IH]; intros a acc Hf Ha; [lia|].
  pose proof (Z.mod_pos_bound a 10 ltac:(lia)) as Hm.
  destruct (digit_char (a mod 10) Hm) as [Hd _].
  rewrite decimal_digits_S.
  set (c := ascii_of_nat (48 + Z.to_nat (a mod 10))) in *.
  destruct (Z.ltb_spec a 10) as [Hlt|Hge].
  - exists 1. split; [lia|]. intros st. rewrite (read_digits_cons _ _ _ _ _ Hd).
    rewrite Z.mod_small by lia. do 2 f_equal; lia.
  - assert (0 <= a / 10 < 10 ^ Z.of_nat fuel) as Hq.
    { split; [apply Z.div_pos; lia|].
      apply Z.div_lt_upper_bound; [lia|].
      replace (Z.of_nat (S fuel)) with (Z.of_nat fuel + 1) in Ha by lia.
      rewrite Z.pow_add_r in Ha by lia. lia. }
    assert (1 <= fuel)%nat as Hf'.
    { destruct fuel; [|lia]. exfalso.
      change (10 ^ Z.of_nat 0) with 1 in Hq.
      pose proof (Z.div_le_lower_bound a 10 1 ltac:(lia) ltac:(lia)). lia. }
    destruct (IH (a / 10) (String c acc) Hf' Hq) as (k & Hk & Hread).
    exists (k + 1). split; [lia|]. intros st. rewrite Hread.
    rewrite (read_digits_cons _ _ _ _ _ Hd). do 2 f_equal.
    rewrite Z.pow_add_r by lia. change (10 ^ 1) with 10.
    pose proof (Z.div_mod a 10 ltac:(lia)).
    change (default 0 (Some (default 0 st * 10 ^ k + a `div` 10)))
      with (default 0 st * 10 ^ k + a `div` 10).
    lia.
Qed.

Lemma decimal_digits_all (fuel : nat) :
  forall a acc,
    (1 <= fuel)%nat -> 0 <= a -> all_digits acc = true ->
    all_digits (decimal_digits fuel a acc) = true /\
    decimal_digits fuel a acc <> "".
Proof.
  induction fuel as [|fuel IH]; intros a acc Hf Ha Hacc; [lia|].
  pose proof (Z.mod_pos_bound a 10 ltac:(lia)) as Hm.
  destruct (digit_char (a mod 10) Hm) as [_ Hc].
  rewrite decimal_digits_S.
  set (c := ascii_of_nat (48 + Z.to_nat (a mod 10))) in *.
  assert (all_digits (String c acc) = true) as Hacc'.
  { cbn [all_digits] in Hc |- *. rewrite andb_true_r in Hc. by rewrite Hc, Hacc. }
  destruct (Z.ltb_spec a 10) as [Hlt|Hge]; [by split|].
  destruct fuel as [|fuel'].
  - by split.
  - apply IH; [lia| apply Z.div_pos; lia | exact Hacc'].
Qed.

Lemma fuel_enough (a : Z) :
  0 <= a -> a < 10 ^ Z.of_nat (S (Z.to_nat (Z.log2 a))).
Proof.
  intros Ha. pose proof (Z.log2_nonneg a) as Hl.
  replace (Z.of_nat (S (Z.to_nat (Z.log2 a)))) with (Z.succ (Z.log2 a)) by lia.
  destruct (Z.eq_dec a 0) as [->|Hne]; [reflexivity|].
  destruct (Z.log2_spec a ltac:(lia)) as [_ Hlt].
  eapply Z.lt_le_trans; [exact Hlt|].
  apply Z.pow_le_mono_l. lia.
Qed.

Lemma digit_cases (c : ascii) :
  ((48 <=? nat_of_ascii c) && (nat_of_ascii c <=? 57))%nat = true ->
  In c ["0"; "1"; "2"; "3"; "4"; "5"; "6"; "7"; "8"; "9"]%char.
Proof.
  destruct c as [[] [] [] [] [] [] [] []]; vm_compute; intros H;
    try discriminate; tauto.
Qed.

(** [parseInt] on a string of decimal digits, with or without a minus
    sign in front. *)
Lemma parseInt_all_digits (s : string) :
  all_digits s = true -> s <> "" ->
  parseInt_str s = (fun n => 1 * n) <$> read_digits 10 s None /\
  parseInt_str (String "-" s) = (fun n => -1 * n) <$> read_digits 10 s None.
Proof.
  intros Hs Hne. destruct s as [|c r]; [done|].
  simpl in Hs. apply andb_true_iff in Hs as [Hc Hr].
  apply digit_cases in Hc. simpl in Hc.
  destruct r as [|c2 r2].
  - repeat (destruct Hc as [<-|Hc]; [split; reflexivity|]). done.
  - simpl in Hr. apply andb_true_iff in Hr as [Hc2 _].
    apply digit_cases in Hc2. simpl in Hc2.
    repeat (destruct Hc as [<-|Hc];
            [repeat (destruct Hc2 as [<-|Hc2]; [split; reflexivity|]); done|]).
    done.
Qed.

Lemma read_decimal_abs (a : Z) :
  0 <= a ->
  let s := decimal_digits (S (Z.to_nat (Z.log2 a))) a "" in
  all_digits s = true /\ s <> "" /\ read_digits 10 s None = Some a.
Proof.
  intros Ha s.
  destruct (decimal_digits_all (S (Z.to_nat (Z.log2 a))) a "" ltac:(lia) Ha eq_refl)
    as [Hall Hne].
  destruct (decimal_digits_read (S (Z.to_nat (Z.log2 a))) a "" ltac:(lia)
              (conj Ha (fuel_enough a Ha))) as (k & Hk & Hread).
  repeat split; try assumption.
  subst s. rewrite Hread. simpl. f_equal; lia.
Qed.

(** An integer written in decimal is read back by [parseInt]. *)
Lemma parseInt_decimal (n : Z) : parseInt (Some (decimal n)) = Some n.
Proof.
  unfold decimal, parseInt. cbv zeta.
  destruct (read_decimal_abs (Z.abs n) (Z.abs_nonneg n)) as (Hall & Hne & Hread).
  destruct (parseInt_all_digits _ Hall Hne) as [Hpos Hneg].
  destruct (Z.ltb_spec n 0); cbv iota.
  - rewrite Hneg, Hread. simpl. f_equal; lia.
  - rewrite Hpos, Hread. simpl. f_equal; lia.
Qed.

(** ** Confirm *)

Lemma trim_end_snoc {A : Type} (blank : A -> bool) (l : list A) (x : A) :
  blank x = false -> trim_end blank (l ++ [x]) = (l ++ [x])%list.
Proof.
  intros Hx. induction l as [|a l IH]; simpl; [by rewrite Hx|].
  rewrite IH. by destruct l.
Qed.



Lemma nth_or_lookup (l : list string) (j : nat) (x : string) :
  nth_or "" l j = x -> x <> "" -> l !! j = Some x.
Proof. unfold nth_or. destruct (l !! j); simpl; congruence. Qed.



(** X9.  POST /confirm answers 400 without any call when food is
    missing or empty; with food but no access token or no sheet id it
    answers 200 with the submitted fields, [logged: false] and
    [rowIndex: null], again without any call. *)
Theorem X9_confirm_without_ledger (c : Config) (b : gmap string json) (r : Remote) :
  (truthy (b !! "food") = false ->
   post_confirm c b r = (mkResponse 400 (BError "Food description is required"), r)) /\
  (truthy (b !! "food") = true ->
   has_sheet_id c = false \/ has_access_token c = false ->
   post_confirm c b r =
     (mkResponse 200
        (BConfirm (b !! "food") (b !! "calories") (b !! "protein") (b !! "carbs")
                  (b !! "fat") (b !! "date") (b !! "time") false None), r)).
Proof.
  split.
  - intros Hf. unfold post_confirm. by rewrite Hf.
  - intros Hf Hu. unfold post_confirm. rewrite Hf.
    assert (has_sheet_id c && has_access_token c = false) as ->.
    { destruct Hu as [-> | ->]; [done|apply andb_false_r]. }
    reflexivity.
Qed.

Lemma X9_confirm_without_ledger_witness :
  post_confirm Sample.connected ∅ Sample.online
    = (mkResponse 400 (BError "Food description is required"), Sample.online) /\
  (post_confirm Sample.disconnected Sample.meal Sample.online).2 = Sample.online.
Proof.
  split.
  - apply (proj1 (X9_confirm_without_ledger Sample.connected ∅ Sample.online)).
    reflexivity.
  - rewrite (proj2 (X9_confirm_without_ledger Sample.disconnected Sample.meal
                      Sample.online) eq_refl (or_intror eq_refl)).
    reflexivity.
Defined.

Section Confirmed.

Local Arguments write_cells : simpl never.
Local Arguments trim_end : simpl never.
Local Arguments columns : simpl never.


End Confirmed.

Lemma delete_entry_effect (c : Config) (p : string) (k : Z) (r : Remote) :
  authorized c ->
  parseInt (Some p) = Some k -> -1 <= k ->
  outage r (length (log r)) = false ->
  delete_entry c p r =
    (mkResponse 200 BSuccess,
     mkRemote
       (mkBook (take (Z.to_nat (k + 1)) (Sheet1 (book r))
                ++ drop (Z.to_nat (k + 2)) (Sheet1 (book r)))
               (Settings (book r)))
       (log r ++ [deleteDimension 0 (Some (k + 2 - 1)) (Some (k + 2))])
       (outage r)).
Proof.
  intros Ha Hp Hk Ho. unfold delete_entry. rewrite (authorized_guard c Ha). run.
  rewrite Ho, Hp. simpl. unfold delete_rows.
  destruct (Z.leb_spec 0 (k + 2 - 1)); [|lia].
  destruct (Z.ltb_spec (k + 2 - 1) (k + 2)); [|lia]. simpl.
  replace (Z.to_nat (k + 2 - 1)) with (Z.to_nat (k + 1)) by lia.
  reflexivity.
Qed.






Section ConfirmFrame.

Local Arguments write_cells : simpl never.
Local Arguments trim_end : simpl never.
Local Arguments columns : simpl never.

(** X12.  When the append goes through but the read of column A that
    follows fails, the entry is in the ledger and the answer says
    [logged: true], with [rowIndex: null]. *)
Theorem X12_confirm_index_unknown (c : Config) (b : gmap string json) (r : Remote) :
  authorized c ->
  truthy (b !! "food") = true ->
  outage r (length (log r)) = false ->
  outage r (S (length (log r))) = true ->
  (post_confirm c b r).1 =
    mkResponse 200
      (BConfirm (b !! "food") (b !! "calories") (b !! "protein") (b !! "carbs")
                (b !! "fat") (b !! "date") (b !! "time") true None) /\
  Sheet1 (book (post_confirm c b r).2)
    = (trim_end blank_row (Sheet1 (book r)) ++ [write_cells 0 (confirm_row b) []])%list.
Proof.
  intros [Hs Ht] Hf Ho1 Ho2. unfold post_confirm. rewrite Hf, Hs, Ht. run.
  rewrite Ho1. simpl. rewrite length_app. simpl length.
  rewrite Nat.add_1_r, Ho2. simpl. by split.
Qed.

(** X13.  Whatever the request and whichever calls fail, POST /confirm
    leaves the Settings sheet alone and either leaves the ledger as it
    was or adds one row below its data rows: it never changes or removes
    a row that holds data. *)
Theorem X13_confirm_append_only (c : Config) (b : gmap string json) (r : Remote) :
  Settings (book (post_confirm c b r).2) = Settings (book r) /\
  (Sheet1 (book (post_confirm c b r).2) = Sheet1 (book r) \/
   Sheet1 (book (post_confirm c b r).2)
     = (trim_end blank_row (Sheet1 (book r))
        ++ [write_cells 0 (confirm_row b) []])%list).
Proof.
  unfold post_confirm.
  destruct (truthy (b !! "food")); simpl; [|by split; [|left]].
  destruct (has_sheet_id c && has_access_token c); [|by split; [|left]].
  run. destruct (outage r (length (log r))); simpl; [by split; [|left]|].
  destruct (outage r (length (log r ++ [values_append Sheet1_A_G
              [[b !! "date"; b !! "time"; b !! "food"; b !! "calories";
                b !! "protein"; b !! "carbs"; b !! "fat"]]])));
    simpl; [by split; [|right]|].
  unfold read_range. simpl.
  destruct (trim_end blank_row _); simpl; by split; [|right].
Qed.

End ConfirmFrame.

Lemma X12_confirm_index_unknown_witness :
  logged_flag
    (body (post_confirm Sample.connected Sample.meal
             (mkRemote Sample.book0 [] (fun n => (0 <? n)%nat))).1)
  = Some true.
Proof.
  rewrite (proj1 (X12_confirm_index_unknown Sample.connected Sample.meal
                    (mkRemote Sample.book0 [] (fun n => (0 <? n)%nat))
                    (conj eq_refl eq_refl) eq_refl eq_refl eq_refl)).
  reflexivity.
Defined.

(** ** Reads and remote failures *)

(** X14.  The summary, the entries listing and the targets read never
    change the spreadsheet, whatever the request, the credentials and the
    outcome of the call; each makes at most one call, a read. *)
Theorem X14_reads_are_read_only (c : Config) (r : Remote) :
  (forall p tz,
     book (get_summary c p tz r).2 = book r /\
     (log (get_summary c p tz r).2 = log r \/
      log (get_summary c p tz r).2 = (log r ++ [values_get Sheet1_A_G])%list)) /\
  (forall d,
     book (get_entries c d r).2 = book r /\
     (log (get_entries c d r).2 = log r \/
      log (get_entries c d r).2 = (log r ++ [values_get Sheet1_A_G])%list)) /\
  (book (get_targets c r).2 = book r /\
   (log (get_targets c r).2 = log r \/
    log (get_targets c r).2 = (log r ++ [values_get Settings_A2_D2])%list)).
Proof.
  split; [|split]; intros; unfold get_summary, get_entries, get_targets;
    (destruct (negb (has_sheet_id c) || negb (has_access_token c));
     [by split; [|left]|]);
    run; (destruct (outage r (length (log r))); simpl; [by split; [|right]|]);
    unfold read_range; simpl;
    repeat (case_match; simpl in *; simplify_eq; try (by split; [|right])).
Qed.

(** X15.  When the first spreadsheet call of an authenticated summary,
    listing, delete, entry update or targets save fails, the answer is
    500 and the spreadsheet is unchanged. *)
Theorem X15_remote_failure_is_500 (c : Config) (r : Remote) :
  authorized c ->
  outage r (length (log r)) = true ->
  (forall p tz, status (get_summary c p tz r).1 = 500 /\
                book (get_summary c p tz r).2 = book r) /\
  (forall d, status (get_entries c d r).1 = 500 /\
             book (get_entries c d r).2 = book r) /\
  (forall p, status (delete_entry c p r).1 = 500 /\
             book (delete_entry c p r).2 = book r) /\
  (forall p b, status (put_entry c p b r).1 = 500 /\
               book (put_entry c p b r).2 = book r) /\
  (forall b, status (put_targets c b r).1 = 500 /\
             book (put_targets c b r).2 = book r).
Proof.
  intros Ha Ho.
  unfold get_summary, get_entries, delete_entry, put_entry, put_targets.
  rewrite (authorized_guard c Ha). run. rewrite Ho.
  repeat split.
Qed.

Lemma X15_remote_failure_is_500_witness :
  status (get_summary Sample.connected (Some "daily") None Sample.offline).1 = 500 /\
  status (delete_entry Sample.connected "0" Sample.offline).1 = 500.
Proof.
  destruct (X15_remote_failure_is_500 Sample.connected Sample.offline
              (conj eq_refl eq_refl) eq_refl) as (Hs & _ & Hd & _).
  split; [apply Hs | apply Hd].
Defined.

(** ** Summary: order and counts *)

Lemma matched_data_filter (h : Host) (start now : Z) (data : list Row) :
  forall index,
    matched_from h start now (S index) data
    = List.filter (in_window h start now) data.
Proof.
  induction data as [|row rest IH]; intros index; [reflexivity|].
  simpl. rewrite IH. by destruct (in_window h start now row).
Qed.

Lemma filter_perm {A : Type} (f : A -> bool) (l l' : list A) :
  l ≡ₚ l' -> List.filter f l ≡ₚ List.filter f l'.
Proof.
  induction 1 as [|x l l' _ IH|x y l|l l' l'' _ IH1 _ IH2]; simpl.
  - done.
  - destruct (f x); [by constructor|done].
  - destruct (f x), (f y); try done. apply perm_swap.
  - by etrans.
Qed.

Lemma days_count_perm (ms ms' : list Row) :
  ms ≡ₚ ms' -> days_count ms = days_count ms'.
Proof.
  intros H. unfold days_count, distinct_dates.
  rewrite (list_to_set_perm_L _ _ (Permutation_map date_string H)).
  destruct (decide (ms = [])) as [->|Hne], (decide (ms' = [])) as [->|Hne'];
    try reflexivity.
  - apply Permutation_nil in H. done.
  - symmetry in H. apply Permutation_nil in H. done.
Qed.

(** X16.  The entry count and the day count of a summary do not depend
    on the order of the rows below the first one.  The totals are sums
    of doubles taken in row order and can depend on it: calories of
    2^53, 1 and 1 add up to 9007199254740992 in that order and to
    9007199254740994 in the reverse order. *)
Theorem X16_summary_counts_order_independent :
  (forall h p w first data data',
     data ≡ₚ data' ->
     entryCount (summarize h p w (first :: data))
       = entryCount (summarize h p w (first :: data')) /\
     daysCount (summarize h p w (first :: data))
       = daysCount (summarize h p w (first :: data'))) /\
  totalCalories (summarize Sample.host0 (Some "daily") (mkWall 2024 2 10 15 0 0)
                   Sample.rows_large) = Number_of 9007199254740992 /\
  totalCalories (summarize Sample.host0 (Some "daily") (mkWall 2024 2 10 15 0 0)
                   (rev Sample.rows_large)) = Number_of 9007199254740994.
Proof.
  split; [|split; vm_compute; reflexivity].
  intros h p w first data data' H.
  destruct (summarize_spec h p w (first :: data)) as (_ & _ & _ & _ & -> & ->).
  destruct (summarize_spec h p w (first :: data')) as (_ & _ & _ & _ & -> & ->).
  assert (matched_rows h (start_of p w) (getTime w) (first :: data)
          ≡ₚ matched_rows h (start_of p w) (getTime w) (first :: data')) as Hp.
  { unfold matched_rows. simpl. rewrite !matched_data_filter.
    apply Permutation_app_head, filter_perm, H. }
  split; [by rewrite (Permutation_length Hp) | by apply days_count_perm].
Qed.

Lemma X16_summary_counts_order_independent_witness :
  entryCount (summarize Sample.host0 (Some "weekly") (mkWall 2024 2 10 15 0 0)
                (Sample.header :: rev (tail Sample.rows0)))
  = entryCount (summarize Sample.host0 (Some "weekly") (mkWall 2024 2 10 15 0 0)
                  Sample.rows0).
Proof.
  apply (proj1 X16_summary_counts_order_independent Sample.host0 (Some "weekly")
           (mkWall 2024 2 10 15 0 0) Sample.header
           (rev (tail Sample.rows0)) (tail Sample.rows0)).
  symmetry. apply Permutation_rev.
Defined.

Lemma matched_length (h : Host) (start now : Z) (rows : list Row) :
  forall index,
    (length (matched_from h start now index rows) <= length rows)%nat.
Proof.
  induction rows as [|row rest IH]; intros index; simpl; [lia|].
  rewrite length_app. specialize (IH (S index)).
  destruct (negb (is_header_row index row) && in_window h start now row);
    simpl; lia.
Qed.

(** X17.  In every summary the entry count is at most the number of rows
    read, and the day count lies between 1 and the entry count (1 when
    nothing matched). *)
Theorem X17_summary_counts (h : Host) (p : option string) (w : Wall)
    (rows : list Row) :
  let s := summarize h p w rows in
  0 <= entryCount s <= Z.of_nat (length rows) /\
  1 <= daysCount s <= Z.max 1 (entryCount s).
Proof.
  intros s. subst s.
  destruct (summarize_spec h p w rows) as (_ & _ & _ & _ & -> & ->).
  pose proof (matched_length h (start_of p w) (getTime w) rows 0).
  destruct (distinct_dates_size (matched_rows h (start_of p w) (getTime w) rows))
    as [Hle Hne].
  unfold days_count, matched_rows in *.
  destruct (decide _) as [|Hm]; [lia|]. specialize (Hne Hm). lia.
Qed.

(** ** Listing: what every entry satisfies *)

Lemma cell_eqb_eq (a b : option string) : cell_eqb a b = true -> a = b.
Proof.
  destruct a as [x|], b as [y|]; simpl; try done.
  intros H. apply String.eqb_eq in H. by subst.
Qed.

Section ListingInvariants.

Local Arguments Z.of_nat : simpl never.

Lemma filter_cons_if {A : Type} (f : A -> bool) (x : A) (l : list A) :
  List.filter f (x :: l) = if f x then x :: List.filter f l else List.filter f l.
Proof. reflexivity. Qed.

Lemma entries_from_invariants (hh : bool) (date : option string) (rows : list Row) :
  forall off : nat,
    let h := if hh then 1 else 0 in
    let es := map (entry_of hh)
                (List.filter (entry_filter hh date)
                   (imap (fun i row => (row, (off + i)%nat)) rows)) in
    Forall (fun e => e_date e = date /\ e_logged e = true /\ 0 <= rowIndex e /\
                     Z.of_nat off - h <= rowIndex e
                       < Z.of_nat (off + length rows) - h) es /\
    StronglySorted Z.lt (map rowIndex es).
Proof.
  induction rows as [|row rest IH]; intros off h es; subst h es.
  { split; constructor. }
  rewrite imap_cons.
  rewrite (imap_ext _ (fun i row => (row, (S off + i)%nat)))
    by (intros; simpl; f_equal; lia).
  destruct (IH (S off)) as [IHall IHsorted]. clear IH.
  rewrite filter_cons_if.
  destruct (entry_filter hh date (row, (off + 0)%nat)) eqn:Hkeep.
  - rewrite map_cons. split.
    + constructor.
      * simpl in Hkeep |- *.
        destruct ((off + 0 =? 0)%nat && hh) eqn:Hhd; [discriminate|].
        apply cell_eqb_eq in Hkeep.
        assert (hh = true -> off <> 0%nat) as Hnz.
        { intros ->. rewrite andb_true_r in Hhd. apply Nat.eqb_neq in Hhd. lia. }
        repeat split; try done; destruct hh; try specialize (Hnz eq_refl); lia.
      * eapply Forall_impl; [exact IHall|]. simpl. intros e (?&?&?&?).
        repeat split; try done; lia.
    + constructor; [exact IHsorted|].
      apply Forall_map. eapply Forall_impl; [exact IHall|].
      simpl. intros e (_&_&_&Hlo&_). destruct hh; lia.
  - split; [|exact IHsorted].
    eapply Forall_impl; [exact IHall|]. simpl. intros e (?&?&?&?).
    repeat split; try done; lia.
Qed.

End ListingInvariants.

(** X19.  Every entry of a listing carries the date asked for and
    [logged: true]; its [rowIndex] is non-negative and below the number
    of rows read; and the indices of a listing are strictly increasing,
    so no two entries share one. *)
Theorem X19_listing_invariants (date : option string) (rows : list Row) :
  Forall (fun e => e_date e = date /\ e_logged e = true /\
                   0 <= rowIndex e < Z.of_nat (length rows))
         (list_entries date rows) /\
  StronglySorted Z.lt (map rowIndex (list_entries date rows)).
Proof.
  destruct (entries_from_invariants (has_header rows) date rows 0) as [Hall Hsorted].
  split; [|exact Hsorted].
  eapply Forall_impl; [exact Hall|]. simpl. intros e (?&?&?&?).
  repeat split; try done. destruct (has_header rows); lia.
Qed.

(** ** Deleting without a header row, and below index 0 *)

Section Headerless.

Local Arguments Z.of_nat : simpl never.

Lemma entry_of_header_shift (row : Row) (j : nat) :
  entry_of false (row, j) = entry_of true (row, S j).
Proof. unfold entry_of. f_equal. lia. Qed.

Lemma entries_without_header (date : option string) (data : list Row) :
  forall j : nat,
    map (entry_of false)
      (List.filter (entry_filter false date)
         (imap (fun i row => (row, (j + i)%nat)) data))
    = data_entries date j data.
Proof.
  induction data as [|row rest IH]; intros j; [reflexivity|].
  rewrite imap_cons.
  rewrite (imap_ext _ (fun i row => (row, (S j + i)%nat)))
    by (intros; simpl; f_equal; lia).
  rewrite filter_cons_if. simpl data_entries. rewrite <- (IH (S j)).
  unfold entry_filter at 1. rewrite andb_false_r, Nat.add_0_r.
  destruct (cell_eqb (row !! 0%nat) date); [|reflexivity].
  rewrite map_cons, entry_of_header_shift. reflexivity.
Qed.

Lemma list_entries_no_header (date : option string) (rows : list Row) :
  has_header rows = false ->
  list_entries date rows = data_entries date 0 rows.
Proof.
  intros Hh. unfold list_entries. rewrite Hh.
  apply (entries_without_header date rows 0).
Qed.

Lemma has_header_remove (rows : list Row) (k : nat) :
  has_header (take (S k) rows ++ drop (S (S k)) rows) = has_header rows.
Proof. by destruct rows. Qed.

End Headerless.

(** X20.  In a ledger without a header row, DELETE /entries/k does not
    remove the entry listed with index [k] but the one listed with index
    [k + 1]: the handler always skips one row for a header.  The next
    listing is the earlier one without index [k + 1], larger indices
    moved down by one. *)
Theorem X20_delete_without_header (c : Config) (p d : string) (k : Z)
    (r : Remote) (before : list Entry) :
  authorized c ->
  (forall n, outage r n = false) ->
  has_header (ledger (book r)) = false ->
  parseInt (Some p) = Some k -> 0 <= k ->
  (get_entries c (Some d) r).1 = mkResponse 200 (BEntries before true) ->
  (get_entries c (Some d) (delete_entry c p r).2).1
    = mkResponse 200 (BEntries (without (k + 1) before) true).
Proof.
  intros Ha Ho Hh Hp Hk Hbefore.
  rewrite (get_entries_answers c (Some d) r Ha (Ho _)) in Hbefore.
  simpl in Hbefore. injection Hbefore as <-.
  rewrite (delete_entry_answers c p k r Ha Hp Hk (Ho _)). simpl.
  rewrite get_entries_answers by (try exact Ha; apply Ho). simpl.
  do 2 f_equal.
  rewrite !ledger_rows in *. simpl.
  rewrite has_header_trim in Hh. rewrite !list_entries_trim.
  rewrite List.map_app, <- firstn_map, <- skipn_map.
  rewrite !list_entries_no_header by (by rewrite ?has_header_remove).
  rewrite (data_entries_remove (Some d) (S (Z.to_nat k)) _ 0).
  f_equal. lia.
Qed.

Lemma X20_delete_without_header_witness :
  (get_entries Sample.connected (Some "3/10/2024")
     (delete_entry Sample.connected "0"
        (mkRemote (mkBook (tail Sample.rows0) None) [] (fun _ => false))).2).1
  = mkResponse 200
      (BEntries
         [ mkEntry 0 (Some "3/10/2024") (Some "08:00 AM") (Some "oatmeal")
                   150 5 27 3 true;
           mkEntry 1 (Some "3/10/2024") (Some "12:15 PM") (Some "egg salad")
                   0 13 0 22 true;
           mkEntry 2 (Some "3/10/2024") (Some "06:40 PM") (Some "apple")
                   95 0 0 0 true ]
         true).
Proof.
  apply (X20_delete_without_header Sample.connected "0" "3/10/2024" 0
           (mkRemote (mkBook (tail Sample.rows0) None) [] (fun _ => false))
           [ mkEntry 0 (Some "3/10/2024") (Some "08:00 AM") (Some "oatmeal")
                     150 5 27 3 true;
             mkEntry 2 (Some "3/10/2024") (Some "12:15 PM") (Some "egg salad")
                     0 13 0 22 true;
             mkEntry 3 (Some "3/10/2024") (Some "06:40 PM") (Some "apple")
                     95 0 0 0 true ]
           (conj eq_refl eq_refl) (fun _ => eq_refl) eq_refl eq_refl
           ltac:(lia) eq_refl).
Defined.

(** X21.  The row index is not checked for being negative: with -1 the
    handler asks for rows [0, 1) to be deleted, which takes the first
    physical row, the header, out of the ledger. *)
Theorem X21_delete_minus_one (c : Config) (p : string) (r : Remote) :
  authorized c ->
  outage r (length (log r)) = false ->
  parseInt (Some p) = Some (-1) ->
  (delete_entry c p r).1 = mkResponse 200 BSuccess /\
  log (delete_entry c p r).2 = (log r ++ [deleteDimension 0 (Some 0) (Some 1)])%list /\
  Sheet1 (book (delete_entry c p r).2) = tail (Sheet1 (book r)).
Proof.
  intros Ha Ho Hp.
  rewrite (delete_entry_effect c p (-1) r Ha Hp ltac:(lia) Ho). simpl.
  repeat split.
Qed.

Lemma X21_delete_minus_one_witness :
  Sheet1 (book (delete_entry Sample.connected "-1" Sample.online).2)
  = tail Sample.rows0.
Proof.
  apply (X21_delete_minus_one Sample.connected "-1" Sample.online
           (conj eq_refl eq_refl) eq_refl eq_refl).
Defined.

(** ** Targets: saving and reading back *)

Section Targets.

Local Arguments write_cells : simpl never.
Local Arguments write_row : simpl never.
Local Arguments trim_end : simpl never.
Local Arguments columns : simpl never.
Local Arguments decimal : simpl never.

(** What a save of the targets does when every call goes through. *)
Lemma put_targets_effect (c : Config) (b : gmap string json) (r : Remote) :
  authorized c ->
  (forall n, outage r n = false) ->
  exists rows calls,
    put_targets c b r =
      (mkResponse 200 BSuccess,
       mkRemote (mkBook (Sheet1 (book r))
                        (Some (write_row 0 (target_values b) 1 rows)))
                calls (outage r)) /\
    rows = match Settings (book r) with
           | Some old => old
           | None => write_row 0 target_header 0 []
           end /\
    calls = (log r ++ spreadsheets_get ::
               match Settings (book r) with
               | Some _ => [values_update Settings_A2_D2 [target_values b]]
               | None => [addSheet "Settings";
                          values_update Settings_A1_D1 [target_header];
                          values_update Settings_A2_D2 [target_values b]]
               end)%list.
Proof.
  intros Ha Ho. unfold put_targets. rewrite (authorized_guard c Ha). run.
  rewrite !Ho. unfold sheet_titles.
  destruct (Settings (book r)) as [old|] eqn:Hset; simpl.
  - rewrite !Ho. unfold update_range, sheet_rows, set_sheet_rows. simpl.
    rewrite Hset. simpl.
    eexists _, _. split; [reflexivity|]. split; [reflexivity|].
    by rewrite <- app_assoc.
  - rewrite !Ho. unfold add_sheet. rewrite Hset. simpl.
    rewrite !Ho. unfold update_range, sheet_rows, set_sheet_rows. simpl.
    rewrite !Ho. simpl.
    eexists _, _. split; [reflexivity|]. split; [reflexivity|].
    by rewrite <- !app_assoc.
Qed.

Lemma decimal_nonempty (n : Z) : decimal n <> "".
Proof.
  unfold decimal.
  destruct (read_decimal_abs (Z.abs n) (Z.abs_nonneg n)) as (_ & Hne & _).
  by destruct (n <? 0).
Qed.

Lemma take_4_lookups (l : list string) (x0 x1 x2 x3 : string) :
  l !! 0%nat = Some x0 -> l !! 1%nat = Some x1 ->
  l !! 2%nat = Some x2 -> l !! 3%nat = Some x3 ->
  take 4 l = [x0; x1; x2; x3].
Proof.
  destruct l as [|y0 [|y1 [|y2 [|y3 l']]]]; simpl; intros; simplify_eq. done.
Qed.

(** The four cells of a row after four numbers have been written. *)
Lemma written_numbers (a p cb f : Z) (row : Row) :
  columns 0 3 (write_cells 0 [Some (JNum a); Some (JNum p); Some (JNum cb);
                              Some (JNum f)] row)
  = [decimal a; decimal p; decimal cb; decimal f].
Proof.
  unfold columns. rewrite drop_0.
  rewrite (take_4_lookups _ (decimal a) (decimal p) (decimal cb) (decimal f));
    try (apply nth_or_lookup; [|apply decimal_nonempty];
         rewrite nth_or_write_cells; reflexivity).
  apply (trim_end_snoc blank_cell [decimal a; decimal p; decimal cb] (decimal f)).
  unfold blank_cell. pose proof (decimal_nonempty f).
  by destruct (String.eqb_spec (decimal f) "").
Qed.

Lemma parseInt_or_decimal (d n : Z) :
  parseInt_or d (Some (decimal n)) = read_back n d.
Proof.
  unfold parseInt_or. rewrite parseInt_decimal. unfold read_back.
  by destruct n.
Qed.

(** X22.  Targets saved as four integers are read back by the next GET
    /settings/targets, whether or not the Settings sheet existed; a
    target saved as 0 is read back as that field's default. *)
Theorem X22_targets_round_trip (c : Config) (b : gmap string json) (r : Remote)
    (a p cb f : Z) :
  authorized c ->
  (forall n, outage r n = false) ->
  b !! "calories" = Some (JNum a) -> b !! "protein" = Some (JNum p) ->
  b !! "carbs" = Some (JNum cb) -> b !! "fat" = Some (JNum f) ->
  (put_targets c b r).1 = mkResponse 200 BSuccess /\
  (get_targets c (put_targets c b r).2).1 =
    mkResponse 200 (BTargets (read_back a 1800) (read_back p 180)
                             (read_back cb 115) (read_back f 65)).
Proof.
  intros Ha Ho Hc Hp Hcb Hf.
  destruct (put_targets_effect c b r Ha Ho) as (rows & calls & -> & _ & _).
  split; [reflexivity|].
  unfold get_targets. rewrite (authorized_guard c Ha). run. rewrite Ho.
  unfold read_range, sheet_rows. simpl.
  assert (write_row 0 (target_values b) 1 rows !! 1%nat
          = Some (write_cells 0 (target_values b) (nth_or [] rows 1))) as Hrow.
  { unfold write_row. rewrite list_lookup_insert_eq
      by (unfold pad_to; rewrite length_app, length_replicate; lia).
    f_equal. f_equal. apply (nth_or_pad [] (S 1) rows 1). }
  change (Z.to_nat (2 - 1)) with 1%nat.
  rewrite Hrow. simpl. unfold target_values. rewrite Hc, Hp, Hcb, Hf.
  rewrite written_numbers.
  change (trim_end blank_row [[decimal a; decimal p; decimal cb; decimal f]])
    with [[decimal a; decimal p; decimal cb; decimal f]].
  simpl. by rewrite !parseInt_or_decimal.
Qed.

End Targets.

Lemma X22_targets_round_trip_witness :
  (get_targets Sample.connected (put_targets Sample.connected Sample.macros
                                   Sample.online).2).1
  = mkResponse 200 (BTargets 160 6 28 3).
Proof.
  apply (proj2 (X22_targets_round_trip Sample.connected Sample.macros Sample.online
                  160 6 28 3 (conj eq_refl eq_refl) (fun _ => eq_refl)
                  eq_refl eq_refl eq_refl eq_refl)).
Defined.

Section TargetsFrame.

Local Arguments write_cells : simpl never.
Local Arguments write_row : simpl never.

Lemma put_targets_ledger (c : Config) (b : gmap string json) (r : Remote) :
  Sheet1 (book (put_targets c b r).2) = Sheet1 (book r).
Proof.
  unfold put_targets.
  destruct (negb (has_sheet_id c) || negb (has_access_token c)); [reflexivity|].
  run. unfold update_range, add_sheet, sheet_rows, set_sheet_rows. simpl.
  repeat (case_match; simpl in *; simplify_eq; try reflexivity).
Qed.

(** X23.  Saving the targets never changes the ledger sheet.  When the
    Settings sheet is missing and every call goes through, the save
    creates it, writes the header row and then the values below it; when
    the sheet exists the save makes no sheet and writes no header, and
    changes no cell outside row 2. *)
Theorem X23_targets_save (c : Config) (b : gmap string json) (r : Remote) :
  Sheet1 (book (put_targets c b r).2) = Sheet1 (book r) /\
  (authorized c -> (forall n, outage r n = false) ->
   (Settings (book r) = None ->
    Settings (book (put_targets c b r).2)
      = Some [["Calories"; "Protein"; "Carbs"; "Fat"];
              write_cells 0 (target_values b) []] /\
    log (put_targets c b r).2
      = (log r ++ [spreadsheets_get; addSheet "Settings";
                   values_update Settings_A1_D1 [target_header];
                   values_update Settings_A2_D2 [target_values b]])%list) /\
   (forall old, Settings (book r) = Some old ->
    log (put_targets c b r).2
      = (log r ++ [spreadsheets_get;
                   values_update Settings_A2_D2 [target_values b]])%list /\
    exists rows', Settings (book (put_targets c b r).2) = Some rows' /\
      forall i j, i <> 1%nat -> cell rows' i j = cell old i j)).
Proof.
  split; [apply put_targets_ledger|].
  intros Ha Ho.
  destruct (put_targets_effect c b r Ha Ho) as (rows & calls & -> & -> & ->).
  split.
  - intros ->. simpl. split; reflexivity.
  - intros old ->. simpl. split; [reflexivity|].
    eexists. split; [reflexivity|]. intros i j Hi.
    rewrite cell_write_row. by destruct (decide (i = 1%nat)).
Qed.

End TargetsFrame.

Lemma X23_targets_save_witness :
  Settings (book (put_targets Sample.connected Sample.macros Sample.online).2)
  = Some [["Calories"; "Protein"; "Carbs"; "Fat"]; ["160"; "6"; "28"; "3"]].
Proof.
  destruct (X23_targets_save Sample.connected Sample.macros Sample.online)
    as [_ H].
  destruct (H (conj eq_refl eq_refl) (fun _ => eq_refl)) as [Hnew _].
  destruct (Hnew eq_refl) as [-> _]. reflexivity.
Defined.

(** ** The earlier server's analyze: its other outcomes *)

(** X24.  The earlier POST /analyze answers 400 without any call when
    food is missing.  Without an access token or sheet id it answers 200
    with [logged: false], makes no call, and passes the estimator's
    fields through.  When the estimator's reply parses to [null] it still
    answers 200 with [logged: false] and logs nothing, authenticated or
    not: the failed read of the reply's fields is caught with the
    append. *)
Theorem X24_legacy_analyze_edges (c : Config) (llm : Content -> Reply)
    (b : gmap string json) (r : Remote) :
  (truthy (b !! "food") = false ->
   Legacy.post_analyze c llm b r
     = (mkResponse 400 (BError "Food description is required"), r)) /\
  (truthy (b !! "food") = true ->
   has_sheet_id c = false \/ has_access_token c = false ->
   forall o, llm (TextPrompt (b !! "food")) = ParsedObject o ->
     (Legacy.post_analyze c llm b r).2 = r /\
     exists fields,
       (Legacy.post_analyze c llm b r).1 = mkResponse 200 (BObject fields) /\
       fields !! "logged" = Some (JBool false) /\
       forall k v, k <> "logged" -> o !! k = Some v -> fields !! k = Some v) /\
  (truthy (b !! "food") = true ->
   llm (TextPrompt (b !! "food")) = ParsedNull ->
   (Legacy.post_analyze c llm b r).2 = r /\
   status (Legacy.post_analyze c llm b r).1 = 200 /\
   logged_flag (body (Legacy.post_analyze c llm b r).1) = Some false).
Proof.
  split; [|split].
  - intros Hf. unfold Legacy.post_analyze. by rewrite Hf.
  - intros Hf Hu o Hllm. unfold Legacy.post_analyze. rewrite Hf.
    assert (has_sheet_id c && has_access_token c = false) as ->.
    { destruct Hu as [-> | ->]; [done|apply andb_false_r]. }
    run. rewrite Hllm. simpl. split; [reflexivity|].
    eexists. split; [reflexivity|]. split; [apply lookup_insert_eq|].
    intros k v Hk Hv. rewrite lookup_insert_ne by done.
    by apply spread_lookup_new.
  - intros Hf Hllm. unfold Legacy.post_analyze. rewrite Hf. run. rewrite Hllm.
    destruct (has_sheet_id c && has_access_token c); simpl;
      rewrite lookup_insert_eq; by repeat split.
Qed.

Lemma X24_legacy_analyze_edges_witness :
  Legacy.post_analyze Sample.connected Sample.llm ∅ Sample.online
    = (mkResponse 400 (BError "Food description is required"), Sample.online) /\
  logged_flag
    (body (Legacy.post_analyze Sample.connected (fun _ => ParsedNull) Sample.meal
             Sample.online).1) = Some false.
Proof.
  destruct (X24_legacy_analyze_edges Sample.connected Sample.llm ∅ Sample.online)
    as (H400 & _ & _).
  destruct (X24_legacy_analyze_edges Sample.connected (fun _ => ParsedNull)
              Sample.meal Sample.online) as (_ & _ & Hnull).
  split; [by apply H400|].
  by destruct (Hnull eq_refl eq_refl) as (_ & _ & ?).
Defined.

(** ** Confirm, then list *)




Section ConfirmThenList.

Local Arguments write_cells : simpl never.
Local Arguments trim_end : simpl never.
Local Arguments columns : simpl never.
Local Arguments Z.of_nat : simpl never.


End ConfirmThenList.

